(** * fuzzydate: a date whose day, or day and month, may be unknown

    A shallow embedding of [src/fuzzydate/fuzzydate.py] together with the
    parts of the Python runtime its behaviour depends on: the [int(str)]
    parser, [%]-formatting of integers, and the field check, comparison and
    hash of [datetime.date]. *)

From Stdlib Require Import ZArith NArith List Bool String Ascii Lia.
Import ListNotations.

Local Open Scope N_scope.

(** ** Python strings

    A [str] is a sequence of Unicode code points. *)

Definition char := N.
Definition pystr := list char.

(** An ASCII literal of the source, as a [pystr]. *)
Definition lit (s : string) : pystr := map N_of_ascii (list_ascii_of_string s).

(** [len(s)] *)
Definition len (s : pystr) : Z := Z.of_nat (List.length s).

(** [s[a:b]] for [0 <= a <= b]. *)
Definition slice (s : pystr) (a b : nat) : pystr := firstn (b - a) (skipn a s).

(** [needle in hay] on two strings: substring test. *)
Fixpoint startswith (s prefix : pystr) : bool :=
  match prefix, s with
  | [], _ => true
  | p :: prefix', c :: s' => (c =? p) && startswith s' prefix'
  | _ :: _, [] => false
  end.

Fixpoint str_in (needle hay : pystr) : bool :=
  startswith hay needle ||
  match hay with
  | [] => false
  | _ :: hay' => str_in needle hay'
  end.

(** [marker * n] *)
Fixpoint str_mul (s : pystr) (n : nat) : pystr :=
  match n with
  | O => []
  | S n' => s ++ str_mul s n'
  end.

(** [string.digits] *)
Definition string_digits : pystr := lit "0123456789".

(** ** The built-in [int(str)], base 10 (CPython [Objects/longobject.c],
    [Objects/unicodeobject.c]) *)

Module PyInt.

(** [Py_ISSPACE]: the ASCII white space the byte-level parser skips. *)
Definition Py_ISSPACE (c : char) : bool :=
  ((9 <=? c) && (c <=? 13)) || (c =? 32).

(** [Py_UNICODE_ISSPACE]: the Unicode white space. *)
Definition Py_UNICODE_ISSPACE (c : char) : bool :=
  (c =? 0x85) || (c =? 0xa0) || (c =? 0x1680)
  || ((0x2000 <=? c) && (c <=? 0x200a))
  || (c =? 0x2028) || (c =? 0x2029) || (c =? 0x202f)
  || (c =? 0x205f) || (c =? 0x3000)
  || ((9 <=? c) && (c <=? 13)) || ((0x1c <=? c) && (c <=? 0x20)).

(** First code point of every run of ten decimal digits (general category
    Nd, Unicode 14.0) other than ASCII and the mathematical digits. *)
Definition decimal_blocks : list N :=
  [ 0x660; 0x6f0; 0x7c0; 0x966; 0x9e6; 0xa66; 0xae6; 0xb66; 0xbe6; 0xc66;
    0xce6; 0xd66; 0xde6; 0xe50; 0xed0; 0xf20; 0x1040; 0x1090; 0x17e0;
    0x1810; 0x1946; 0x19d0; 0x1a80; 0x1a90; 0x1b50; 0x1bb0; 0x1c40; 0x1c50;
    0xa620; 0xa8d0; 0xa900; 0xa9d0; 0xa9f0; 0xaa50; 0xabf0; 0xff10;
    0x104a0; 0x10d30; 0x11066; 0x110f0; 0x11136; 0x111d0; 0x112f0; 0x11450;
    0x114d0; 0x11650; 0x116c0; 0x11730; 0x118e0; 0x11950; 0x11c50; 0x11d50;
    0x11da0; 0x16a60; 0x16ac0; 0x16b50; 0x1e140; 0x1e2f0; 0x1e950; 0x1fbf0 ].

(** [Py_UNICODE_TODECIMAL]: the decimal value of a code point, if any. *)
Definition Py_UNICODE_TODECIMAL (c : char) : option N :=
  if (48 <=? c) && (c <=? 57) then Some (c - 48)
  else if (0x1d7ce <=? c) && (c <=? 0x1d7ff) then Some ((c - 0x1d7ce) mod 10)
  else match find (fun b => (b <=? c) && (c <? b + 10)) decimal_blocks with
       | Some b => Some (c - b)
       | None => None
       end.

(** [_PyUnicode_TransformDecimalAndSpaceToASCII]: an ASCII string is taken
    as it is; otherwise spaces become [' '], decimal digits their ASCII
    digit, and the copy ends in ['?'] at the first other code point. *)
Fixpoint transform_loop (s : pystr) : pystr :=
  match s with
  | [] => []
  | ch :: s' =>
      if ch <? 127 then ch :: transform_loop s'
      else if Py_UNICODE_ISSPACE ch then 32 :: transform_loop s'
      else match Py_UNICODE_TODECIMAL ch with
           | Some d => (48 + d) :: transform_loop s'
           | None => [63]
           end
  end.

Definition is_ascii (s : pystr) : bool := forallb (fun ch => ch <? 128) s.

Definition transform (s : pystr) : pystr :=
  if is_ascii s then s else transform_loop s.

Fixpoint skip_space (s : pystr) : pystr :=
  match s with
  | c :: s' => if Py_ISSPACE c then skip_space s' else s
  | [] => []
  end.

(** [_PyLong_DigitValue[c] < 10] *)
Definition digit_value (c : char) : option N :=
  if (48 <=? c) && (c <=? 57) then Some (c - 48) else None.

(** The digit loop of [long_from_string_base]: digits with single
    underscores between them.  Returns the value read, the number of digits
    and the unread rest; [None] on a doubled or trailing underscore. *)
Fixpoint scan (s : pystr) (prev_underscore : bool) (acc : N) (digits : nat)
  : option (N * nat * pystr) :=
  match s with
  | c :: s' =>
      if c =? 95 then
        if prev_underscore then None else scan s' true acc digits
      else
        match digit_value c with
        | Some d => scan s' false (10 * acc + d) (S digits)
        | None => if prev_underscore then None else Some (acc, digits, s)
        end
  | [] => if prev_underscore then None else Some (acc, digits, [])
  end.

(** [PyLong_FromString(str, &end, 10)] with the caller's test that the whole
    buffer was read. *)
Definition PyLong_FromString (s : pystr) : option Z :=
  let s1 := skip_space s in
  let '(negative, s2) :=
    match s1 with
    | c :: t => if c =? 43 then (false, t)
                else if c =? 45 then (true, t)
                else (false, s1)
    | [] => (false, s1)
    end in
  match s2 with
  | [] => None
  | c :: _ =>
      if c =? 95 then None
      else
        match scan s2 false 0 0 with
        | Some (v, O, _) => None
        | Some (v, S _, rest) =>
            match skip_space rest with
            | [] => Some (if negative then (- Z.of_N v)%Z else Z.of_N v)
            | _ :: _ => None
            end
        | None => None
        end
  end.

(** [int(s)] for a [str] argument; [None] stands for [ValueError]. *)
Definition int (s : pystr) : option Z := PyLong_FromString (transform s).

End PyInt.

(** ** Integer formatting: [str(n)], ["%0wd" % n] *)

Module PyFormat.

Fixpoint uint_chars (u : Decimal.uint) : pystr :=
  match u with
  | Decimal.Nil => []
  | Decimal.D0 u' => 48 :: uint_chars u'
  | Decimal.D1 u' => 49 :: uint_chars u'
  | Decimal.D2 u' => 50 :: uint_chars u'
  | Decimal.D3 u' => 51 :: uint_chars u'
  | Decimal.D4 u' => 52 :: uint_chars u'
  | Decimal.D5 u' => 53 :: uint_chars u'
  | Decimal.D6 u' => 54 :: uint_chars u'
  | Decimal.D7 u' => 55 :: uint_chars u'
  | Decimal.D8 u' => 56 :: uint_chars u'
  | Decimal.D9 u' => 57 :: uint_chars u'
  end.

(** The decimal digits of [|n|], most significant first; ["0"] for zero. *)
Definition abs_digits (n : Z) : pystr := uint_chars (N.to_uint (Z.abs_N n)).

Definition sign_chars (n : Z) : pystr := if (n <? 0)%Z then [45] else [].

(** [str(n)], also [f"{n}"] and ["%d" % n]. *)
Definition str_of_int (n : Z) : pystr := sign_chars n ++ abs_digits n.

(** ["%0<width>d" % n]: zeros go between the sign and the digits until the
    whole is [width] wide; a longer number is not cut. *)
Definition zero_padded (width : nat) (n : Z) : pystr :=
  let sg := sign_chars n in
  let ds := abs_digits n in
  sg ++ repeat 48 (width - List.length sg - List.length ds) ++ ds.

End PyFormat.

(** ** Exceptions and results *)

(** Why [date.__new__] rejected its fields. *)
Inductive date_error :=
| YearOutOfRange (year : Z)
| MonthOutOfRange (month : Z)
| DayOutOfRange (day : Z).

(** One constructor per [raise] of the module, carrying the values its
    message shows; [InvalidDate] is the [ValueError] and [Overflow] the
    [OverflowError] of [date.__new__] passing through, [IndexError] the
    error of indexing a string. *)
Inductive exn :=
| InvalidCombination (year : Z) (month day : option Z)
| InvalidDate (e : date_error)
| Overflow (value : Z)
| NotSupported (message : pystr)
| TypeError
| InvalidLength (date_string : pystr)
| InvalidSeparator (sep : char)
| InconsistentMarker (date_string : pystr)
| InvalidYear (yyyy : pystr)
| InvalidMarker (marker : pystr)
| IndexError.

(** The Python exception classes involved. *)
Inductive exc_class :=
| PyValueError
| PyTypeError
| PyNotImplementedError
| PyIndexError
| PyOverflowError.

Definition class_of (e : exn) : exc_class :=
  match e with
  | NotSupported _ => PyNotImplementedError
  | TypeError => PyTypeError
  | IndexError => PyIndexError
  | Overflow _ => PyOverflowError
  | _ => PyValueError
  end.

(** [f"{v}"] for an [int | None]. *)
Definition str_of_optint (v : option Z) : pystr :=
  match v with
  | Some n => PyFormat.str_of_int n
  | None => lit "None"
  end.

(** The text of the exception; for [Overflow], on a platform whose C [long]
    has 64 bits. *)
Definition message_of (e : exn) : pystr :=
  match e with
  | InvalidCombination year month day =>
      lit "A date cannot have a fuzzy month and a defined day: ("
        ++ PyFormat.str_of_int year ++ lit ", " ++ str_of_optint month
        ++ lit ", " ++ str_of_optint day ++ lit ")"
  | InvalidDate (YearOutOfRange y) =>
      lit "year " ++ PyFormat.str_of_int y ++ lit " is out of range"
  | InvalidDate (MonthOutOfRange _) => lit "month must be in 1..12"
  | InvalidDate (DayOutOfRange _) => lit "day is out of range for month"
  | Overflow value =>
      if ((value <? -9223372036854775808) || (9223372036854775807 <? value))%Z
      then lit "Python int too large to convert to C long"
      else if (2147483647 <? value)%Z
      then lit "signed integer is greater than maximum"
      else lit "signed integer is less than minimum"
  | NotSupported message => message
  | TypeError => lit "fuzzy_fromisoformat: argument must be str"
  | InvalidLength date_string =>
      lit "Invalid fuzzy isoformat string: " ++ date_string
  | InvalidSeparator sep => lit "Invalid date separator: " ++ [sep]
  | InconsistentMarker date_string =>
      lit "Inconsistent marker usage in fuzzy date: " ++ date_string
  | InvalidYear yyyy => lit "Invalid year: " ++ yyyy
  | InvalidMarker marker =>
      lit "Invalid fuzzy marker: " ++ marker
        ++ lit " (must be a single non-digit character)"
  | IndexError => lit "string index out of range"
  end.

Inductive result (A : Type) :=
| Ok (a : A)
| Raise (e : exn).

Arguments Ok {A} a.
Arguments Raise {A} e.

Definition bind {A B : Type} (r : result A) (k : A -> result B) : result B :=
  match r with
  | Ok a => k a
  | Raise e => Raise e
  end.

Notation "x <- r ;; k" := (bind r (fun x => k))
  (at level 61, r at next level, right associativity).

Definition is_ok {A : Type} (r : result A) : bool :=
  match r with
  | Ok _ => true
  | Raise _ => false
  end.

(** [s[i]] for [0 <= i]. *)
Definition getitem (s : pystr) (i : nat) : result char :=
  match nth_error s i with
  | Some c => Ok c
  | None => Raise IndexError
  end.

(** ** [datetime.date]: the fields, their check, comparison and hash
    (CPython [Modules/_datetimemodule.c], with the names of
    [Lib/datetime.py] where the two agree) *)

Local Open Scope Z_scope.

Record date := mkdate { year : Z; month : Z; day : Z }.

Definition MINYEAR : Z := 1.
Definition MAXYEAR : Z := 9999.

Definition _is_leap (year : Z) : bool :=
  (year mod 4 =? 0) && (negb (year mod 100 =? 0) || (year mod 400 =? 0)).

Definition _DAYS_IN_MONTH : list Z :=
  [-1; 31; 28; 31; 30; 31; 30; 31; 31; 30; 31; 30; 31].

Definition _days_in_month (year month : Z) : Z :=
  if (month =? 2) && _is_leap year then 29
  else nth (Z.to_nat month) _DAYS_IN_MONTH (-1).

Definition _check_date_fields (year month day : Z) : result (Z * Z * Z) :=
  if negb ((MINYEAR <=? year) && (year <=? MAXYEAR))
  then Raise (InvalidDate (YearOutOfRange year))
  else if negb ((1 <=? month) && (month <=? 12))
  then Raise (InvalidDate (MonthOutOfRange month))
  else
    let dim := _days_in_month year month in
    if negb ((1 <=? day) && (day <=? dim))
    then Raise (InvalidDate (DayOutOfRange day))
    else Ok (year, month, day).

(** The range of a C [int]. *)
Definition INT_MIN : Z := -2147483648.
Definition INT_MAX : Z := 2147483647.

(** The conversion of one argument by the format ["i"] of
    [PyArg_ParseTupleAndKeywords]: an integer outside the range of a C
    [int] is an [OverflowError]. *)
Definition as_c_int (value : Z) : result Z :=
  if (INT_MIN <=? value) && (value <=? INT_MAX) then Ok value
  else Raise (Overflow value).

(** [date.__new__(cls, year, month, day)] on three integers: the arguments
    are converted to C [int]s in their order, then checked. *)
Definition date_new (year month day : Z) : result date :=
  year <- as_c_int year ;;
  month <- as_c_int month ;;
  day <- as_c_int day ;;
  f <- _check_date_fields year month day ;;
  let '(y, m, d) := f in
  Ok (mkdate y m d).

(** [_cmp(x, y)]: 0, 1 or -1. *)
Definition _cmp_int (x y : Z) : Z :=
  if x =? y then 0 else if x <? y then -1 else 1.

(** [_cmp] on two triples, as Python orders tuples. *)
Definition _cmp_triple (a b : Z * Z * Z) : Z :=
  let '(y, m, d) := a in
  let '(y2, m2, d2) := b in
  if negb (y =? y2) then _cmp_int y y2
  else if negb (m =? m2) then _cmp_int m m2
  else _cmp_int d d2.

(** [date._cmp] *)
Definition date_cmp (self other : date) : Z :=
  _cmp_triple (year self, month self, day self)
              (year other, month other, day other).

(** [date._getstate]: the four bytes that are hashed and pickled. *)
Definition _getstate (self : date) : list Z :=
  [year self / 256; year self mod 256; month self; day self].

(** ** The class [fuzzydate] *)

(** An instance: the inherited [date] part and the two flags set by
    [__new__]. *)
Record fuzzydate := mkfuzzy {
  base :> date;
  _fuzzy_month : bool;
  _fuzzy_day : bool
}.

(** Lines 27-50. *)
Definition __new__ (year : Z) (month day : option Z) : result fuzzydate :=
  let fuzzy_month := match month with None => true | Some _ => false end in
  let fuzzy_day := match day with None => true | Some _ => false end in
  if fuzzy_month && negb fuzzy_day
  then Raise (InvalidCombination year month day)
  else
    let month := match month with None => 1 | Some m => m end in
    let day := match day with None => 1 | Some d => d end in
    self <- date_new year month day ;;
    Ok (mkfuzzy self fuzzy_month fuzzy_day).

(** What may be passed where a [str] is expected. *)
Inductive pyobj :=
| PyStr (s : pystr)
| PyBytes (b : list N)
| PyInt (n : Z)
| PyNone.

(** Lines 52-54. *)
Definition fromisoformat (date_string : pyobj) : result fuzzydate :=
  Raise (NotSupported (lit
    "`fromisoformat` is not supported for fuzzy dates; use `fuzzy_fromisoformat` instead")).

(** The loop of lines 77-79. *)
Fixpoint check_separators (seps : list char) : result unit :=
  match seps with
  | [] => Ok tt
  | sep :: seps' =>
      if negb (sep =? 45)%N then Raise (InvalidSeparator sep)
      else check_separators seps'
  end.

(** Lines 85-90: [int(dd)], or the marker check. *)
Definition parse_day (date_string dd : pystr) : result (option Z) :=
  match PyInt.int dd with
  | Some v => Ok (Some v)
  | None =>
      d0 <- getitem dd 0 ;;
      d1 <- getitem dd 1 ;;
      if negb (d0 =? d1)%N then Raise (InconsistentMarker date_string)
      else Ok None
  end.

(** Lines 92-97: [int(mm)], or the marker check, which looks at [dd] only
    when [day is None]. *)
Definition parse_month (date_string mm dd : pystr) (day : option Z)
  : result (option Z) :=
  match PyInt.int mm with
  | Some v => Ok (Some v)
  | None =>
      m0 <- getitem mm 0 ;;
      m1 <- getitem mm 1 ;;
      inconsistent <-
        (if negb (m0 =? m1)%N then Ok true
         else match day with
              | None => m0' <- getitem mm 0 ;;
                        d0 <- getitem dd 0 ;;
                        Ok (negb (m0' =? d0)%N)
              | Some _ => Ok false
              end) ;;
      if (inconsistent : bool) then Raise (InconsistentMarker date_string)
      else Ok None
  end.

(** Lines 99-102. *)
Definition parse_year (yyyy : pystr) : result Z :=
  match PyInt.int yyyy with
  | Some v => Ok v
  | None => Raise (InvalidYear yyyy)
  end.

(** Lines 56-104. *)
Definition fuzzy_fromisoformat (date_string : pyobj) : result fuzzydate :=
  match date_string with
  | PyStr s =>
      if negb (len s =? 10) then Raise (InvalidLength s)
      else
        s4 <- getitem s 4 ;;
        s7 <- getitem s 7 ;;
        _ <- check_separators [s4; s7] ;;
        let yyyy := slice s 0 4 in
        let mm := slice s 5 7 in
        let dd := slice s 8 10 in
        day <- parse_day s dd ;;
        month <- parse_month s mm dd day ;;
        year <- parse_year yyyy ;;
        __new__ year month day
  | _ => Raise TypeError
  end.

(** Lines 106-107. *)
Definition isoformat (self : fuzzydate) : result pystr :=
  Raise (NotSupported (lit
    "`isoformat` is not supported for fuzzy dates; use `fuzzy_isoformat` instead")).

(** The default of the parameter [marker]. *)
Definition default_marker : pystr := lit "?".

(** Lines 109-127; [marker = None] is the call that leaves the parameter
    out. *)
Definition fuzzy_isoformat (self : fuzzydate) (marker : option pystr)
  : result pystr :=
  let marker := match marker with Some m => m | None => default_marker end in
  if negb (len marker =? 1) || str_in marker string_digits
  then Raise (InvalidMarker marker)
  else
    let yyyy := PyFormat.zero_padded 4 (year self) in
    let mm := if _fuzzy_month self then str_mul marker 2
              else PyFormat.zero_padded 2 (month self) in
    let dd := if _fuzzy_day self then str_mul marker 2
              else PyFormat.zero_padded 2 (day self) in
    Ok (yyyy ++ lit "-" ++ mm ++ lit "-" ++ dd).

(** Line 129: the same function under a second name. *)
Definition __str__ := fuzzy_isoformat.

(** The built-in [str(self)]: [type(self).__str__(self)]. *)
Definition str (self : fuzzydate) : result pystr := __str__ self None.

(** The module's class name, [self.__class__.__qualname__]. *)
Definition __qualname__ : pystr := lit "fuzzydate".

(** Lines 131-134. *)
Definition __repr__ (self : fuzzydate) : pystr :=
  let month := if _fuzzy_month self then None else Some (month self) in
  let day := if _fuzzy_day self then None else Some (day self) in
  __qualname__ ++ lit "(" ++ PyFormat.str_of_int (year self) ++ lit ", "
    ++ str_of_optint month ++ lit ", " ++ str_of_optint day ++ lit ")".

(** ** Inherited comparison and hashing *)

(** A [date] object: an instance of [date] itself or of [fuzzydate]. *)
Inductive dateobj :=
| Plain (d : date)
| Fuzzy (f : fuzzydate).

(** The [date] fields of the object, which is all the inherited methods
    read. *)
Definition stored (o : dateobj) : date :=
  match o with
  | Plain d => d
  | Fuzzy f => base f
  end.

(** [date.__eq__], [__lt__], [__le__], [__gt__], [__ge__] on two [date]
    objects. *)
Definition date_eq (self other : dateobj) : bool :=
  date_cmp (stored self) (stored other) =? 0.
Definition date_lt (self other : dateobj) : bool :=
  date_cmp (stored self) (stored other) <? 0.
Definition date_le (self other : dateobj) : bool :=
  date_cmp (stored self) (stored other) <=? 0.
Definition date_gt (self other : dateobj) : bool :=
  date_cmp (stored self) (stored other) >? 0.
Definition date_ge (self other : dateobj) : bool :=
  date_cmp (stored self) (stored other) >=? 0.

(** [date.__hash__]: the built-in hash of the state bytes; [hash_bytes] is
    the interpreter's (per-process) hash of a [bytes] object. *)
Definition date_hash (hash_bytes : list Z -> Z) (self : dateobj) : Z :=
  hash_bytes (_getstate (stored self)).

(** ** Method calls on an instance

    A call hands the receiver to the method by reference.  No method of the
    class assigns to an attribute of [self] (only [__new__] does, on the
    object it is creating), so each call gives the receiver back as it
    got it, next to its outcome. *)

Inductive method :=
| call_isoformat
| call_fuzzy_isoformat (marker : option pystr)
| call_str
| call_repr.

Definition invoke (m : method) (self : fuzzydate)
  : fuzzydate * result pystr :=
  match m with
  | call_isoformat => (self, isoformat self)
  | call_fuzzy_isoformat marker => (self, fuzzy_isoformat self marker)
  | call_str => (self, str self)
  | call_repr => (self, Ok (__repr__ self))
  end.

(** ** Vocabulary of the specification *)

(** The month and day an instance stands for: absent where fuzzy. *)
Definition logical_month (self : fuzzydate) : option Z :=
  if _fuzzy_month self then None else Some (month self).

Definition logical_day (self : fuzzydate) : option Z :=
  if _fuzzy_day self then None else Some (day self).

Definition absent (v : option Z) : bool :=
  match v with
  | None => true
  | Some _ => false
  end.

(** An absent field counts as 1. *)
Definition or_one (v : option Z) : Z :=
  match v with
  | None => 1
  | Some n => n
  end.

(** The Gregorian calendar. *)
Definition leap_year (y : Z) : Prop :=
  (4 | y) /\ (~ (100 | y) \/ (400 | y)).

Inductive month_has_days (y : Z) : Z -> Z -> Prop :=
| long_month m : In m [1; 3; 5; 7; 8; 10; 12] -> month_has_days y m 31
| short_month m : In m [4; 6; 9; 11] -> month_has_days y m 30
| february_common : ~ leap_year y -> month_has_days y 2 28
| february_leap : leap_year y -> month_has_days y 2 29.

(** A valid calendar date of the years [date] supports. *)
Definition valid_calendar_date (y m d : Z) : Prop :=
  1 <= y <= 9999 /\ exists n, month_has_days y m n /\ 1 <= d <= n.

(** An integer a C [int] holds. *)
Definition fits_c_int (v : Z) : Prop := -2147483648 <= v <= 2147483647.

(** The calendar order of two dates: by year, then month, then day. *)
Definition earlier (a b : date) : Prop :=
  year a < year b \/
  (year a = year b /\
   (month a < month b \/ (month a = month b /\ day a < day b))).

(** The invariant of the data model. *)
Record fuzzy_invariant (self : fuzzydate) : Prop := {
  inv_month_day : _fuzzy_month self = true -> _fuzzy_day self = true;
  inv_month_one : _fuzzy_month self = true -> month self = 1;
  inv_day_one : _fuzzy_day self = true -> day self = 1;
  inv_valid : valid_calendar_date (year self) (month self) (day self)
}.

(** An instance some call of the constructor returns. *)
Definition legal (self : fuzzydate) : Prop :=
  exists y m d, __new__ y m d = Ok self.

(** The character at index [i], where there is one. *)
Definition at_ (s : pystr) (i : nat) : char := nth i s 0%N.

Definition dash : char := 45%N.

(** The ASCII decimal digits, the characters of [string.digits]. *)
Definition decimal_digit (c : char) : Prop := (48 <= c <= 57)%N.

(** [s] is [n] in decimal, zero-padded to [width] characters. *)
Definition digits_value (s : pystr) : Z :=
  fold_left (fun acc c => 10 * acc + (Z.of_N c - 48)) s 0.

Definition zero_padded_decimal (width : nat) (n : Z) (s : pystr) : Prop :=
  List.length s = width /\ Forall decimal_digit s /\ digits_value s = n.

(** Ten characters with the two separators in place. *)
Definition well_shaped (s : pystr) : Prop :=
  List.length s = 10%nat /\ at_ s 4 = dash /\ at_ s 7 = dash.

(** The day field is no integer and its two characters differ. *)
Definition day_marker_bad (s : pystr) : Prop :=
  PyInt.int (slice s 8 10) = None /\ at_ s 8 <> at_ s 9.

(** The month field is no integer and its two characters differ, or the
    day field is no integer either and starts with another character. *)
Definition month_marker_bad (s : pystr) : Prop :=
  PyInt.int (slice s 5 7) = None /\
  (at_ s 5 <> at_ s 6 \/
   (PyInt.int (slice s 8 10) = None /\ at_ s 5 <> at_ s 8)).

Definition is_inconsistent_marker {A : Type} (r : result A) : bool :=
  match r with
  | Raise (InconsistentMarker _) => true
  | _ => false
  end.

(** [needle] occurs in [hay]. *)
Definition occurs_in (needle hay : pystr) : Prop :=
  exists before after, hay = before ++ needle ++ after.

(** Executable forms of the two facts about a zero-padded number that are
    checked over the finite ranges of the date fields: it is [width] decimal
    digits of value [n], and [int] reads it back as [n]. *)
Definition zero_padded_ok (width : nat) (n : Z) : bool :=
  let s := PyFormat.zero_padded width n in
  Nat.eqb (List.length s) width
  && forallb (fun c => (48 <=? c)%N && (c <=? 57)%N) s
  && (digits_value s =? n).

Definition int_reads_back (width : nat) (n : Z) : bool :=
  let s := PyFormat.zero_padded width n in
  Nat.eqb (List.length s) width
  && match PyInt.int s with
     | Some v => v =? n
     | None => false
     end.

(** * Properties *)

(** ** The calendar check of [date] *)

Lemma _is_leap_iff (y : Z) : _is_leap y = true <-> leap_year y.
Proof.
  unfold _is_leap, leap_year.
  rewrite andb_true_iff, orb_true_iff, negb_true_iff.
  rewrite !Z.eqb_eq, Z.eqb_neq.
  rewrite <- !Z.mod_divide by discriminate.
  reflexivity.
Qed.

Lemma _is_leap_false_iff (y : Z) : _is_leap y = false <-> ~ leap_year y.
Proof.
  rewrite <- _is_leap_iff. destruct (_is_leap y); split; congruence.
Qed.

Lemma _days_in_month_has_days (y m : Z) :
  1 <= m <= 12 -> month_has_days y m (_days_in_month y m).
Proof.
  intros Hm.
  assert (Hcases : In m [1; 2; 3; 4; 5; 6; 7; 8; 9; 10; 11; 12])
    by (simpl; lia).
  unfold _days_in_month.
  simpl in Hcases.
  repeat (destruct Hcases as [<- | Hcases]);
    try solve [ simpl; first [ apply long_month; simpl; tauto
                             | apply short_month; simpl; tauto ] ];
    try contradiction.
  simpl. destruct (_is_leap y) eqn:Hleap; simpl.
  - apply february_leap, _is_leap_iff, Hleap.
  - apply february_common, _is_leap_false_iff, Hleap.
Qed.

Lemma month_has_days_inv (y m n : Z) :
  month_has_days y m n -> 1 <= m <= 12 /\ n = _days_in_month y m.
Proof.
  intros H. unfold _days_in_month.
  destruct H as [m Hin | m Hin | Hleap | Hleap].
  - simpl in Hin. repeat (destruct Hin as [<- | Hin]); try contradiction;
      simpl; split; (lia || reflexivity).
  - simpl in Hin. repeat (destruct Hin as [<- | Hin]); try contradiction;
      simpl; split; (lia || reflexivity).
  - apply _is_leap_false_iff in Hleap. rewrite Hleap. simpl.
    split; (lia || reflexivity).
  - apply _is_leap_iff in Hleap. rewrite Hleap. simpl.
    split; (lia || reflexivity).
Qed.

Lemma _days_in_month_bounds (y m : Z) :
  1 <= m <= 12 -> 28 <= _days_in_month y m <= 31.
Proof.
  intros Hm.
  pose proof (_days_in_month_has_days y m Hm) as H.
  inversion H as [m' Hin | m' Hin | Hleap | Hleap]; lia.
Qed.

Lemma valid_calendar_date_bounds (y m d : Z) :
  valid_calendar_date y m d -> 1 <= y <= 9999 /\ 1 <= m <= 12 /\ 1 <= d <= 31.
Proof.
  intros (Hy & n & Hn & Hd).
  split; [exact Hy |].
  destruct Hn as [m Hin | m Hin | Hleap | Hleap];
    try (simpl in Hin; intuition lia); lia.
Qed.

Lemma as_c_int_fits (v : Z) : fits_c_int v -> as_c_int v = Ok v.
Proof.
  unfold fits_c_int, as_c_int, INT_MIN, INT_MAX. intros Hv.
  replace ((-2147483648 <=? v) && (v <=? 2147483647)) with true
    by (symmetry; apply andb_true_iff; split; apply Z.leb_le; lia).
  reflexivity.
Qed.

Lemma as_c_int_overflow (v : Z) :
  ~ fits_c_int v -> as_c_int v = Raise (Overflow v).
Proof.
  unfold fits_c_int, as_c_int, INT_MIN, INT_MAX. intros Hv.
  destruct ((-2147483648 <=? v) && (v <=? 2147483647)) eqn:E;
    [| reflexivity].
  apply andb_true_iff in E. rewrite !Z.leb_le in E. lia.
Qed.

Lemma fits_c_int_dec (v : Z) : {fits_c_int v} + {~ fits_c_int v}.
Proof.
  unfold fits_c_int.
  destruct (Z_le_dec (-2147483648) v); [| right; lia].
  destruct (Z_le_dec v 2147483647); [left | right]; lia.
Defined.

(** With arguments that fit, [date.__new__] is the check of the fields. *)
Lemma date_new_checked (y m d : Z) :
  fits_c_int y -> fits_c_int m -> fits_c_int d ->
  date_new y m d =
    (f <- _check_date_fields y m d ;; let '(y, m, d) := f in Ok (mkdate y m d)).
Proof.
  intros Hy Hm Hd. unfold date_new.
  rewrite (as_c_int_fits y Hy), (as_c_int_fits m Hm), (as_c_int_fits d Hd).
  reflexivity.
Qed.

(** With one that does not, it is the [OverflowError] of the first such
    argument. *)
Lemma date_new_overflow (y m d : Z) :
  ~ fits_c_int y \/ ~ fits_c_int m \/ ~ fits_c_int d ->
  exists v,
    date_new y m d = Raise (Overflow v) /\
    ~ fits_c_int v /\ (v = y \/ v = m \/ v = d).
Proof.
  intros Hbad. unfold date_new.
  destruct (fits_c_int_dec y) as [Hy | Hy];
    [rewrite (as_c_int_fits y Hy)
    | rewrite (as_c_int_overflow y Hy); exists y; simpl; tauto].
  destruct (fits_c_int_dec m) as [Hm | Hm];
    [rewrite (as_c_int_fits m Hm)
    | rewrite (as_c_int_overflow m Hm); exists m; simpl; tauto].
  destruct (fits_c_int_dec d) as [Hd | Hd];
    [tauto | rewrite (as_c_int_overflow d Hd); exists d; simpl; tauto].
Qed.

Lemma date_new_valid (y m d : Z) :
  valid_calendar_date y m d -> date_new y m d = Ok (mkdate y m d).
Proof.
  intros Hvalid.
  pose proof (valid_calendar_date_bounds y m d Hvalid) as (By & Bm & Bd).
  rewrite date_new_checked by (unfold fits_c_int; lia).
  destruct Hvalid as (Hy & n & Hn & Hd).
  apply month_has_days_inv in Hn. destruct Hn as (Hm & ->).
  unfold _check_date_fields, MINYEAR, MAXYEAR.
  replace ((1 <=? y) && (y <=? 9999)) with true
    by (symmetry; apply andb_true_iff; split; apply Z.leb_le; lia).
  replace ((1 <=? m) && (m <=? 12)) with true
    by (symmetry; apply andb_true_iff; split; apply Z.leb_le; lia).
  replace ((1 <=? d) && (d <=? _days_in_month y m)) with true
    by (symmetry; apply andb_true_iff; split; apply Z.leb_le; lia).
  reflexivity.
Qed.

(** How [date.__new__] fails: the check of the fields on arguments that
    fit, or the overflow of one that does not. *)
Lemma date_new_raises (y m d : Z) (e : exn) :
  date_new y m d = Raise e ->
  (fits_c_int y /\ fits_c_int m /\ fits_c_int d /\
   exists why, e = InvalidDate why) \/
  (exists v, e = Overflow v /\ ~ fits_c_int v /\ (v = y \/ v = m \/ v = d)).
Proof.
  intros Hnew.
  destruct (fits_c_int_dec y) as [Hy | Hy];
    [destruct (fits_c_int_dec m) as [Hm | Hm];
     [destruct (fits_c_int_dec d) as [Hd | Hd] |] |].
  - left. repeat (split; [assumption |]).
    rewrite date_new_checked in Hnew by assumption.
    revert Hnew. unfold _check_date_fields.
    destruct (negb _); [intros [= <-]; eauto |].
    destruct (negb _); [intros [= <-]; eauto |].
    destruct (negb _); [intros [= <-]; eauto |].
    discriminate.
  - right. destruct (date_new_overflow y m d) as (v & Hv & Hrest); [tauto |].
    exists v. split; [congruence | exact Hrest].
  - right. destruct (date_new_overflow y m d) as (v & Hv & Hrest); [tauto |].
    exists v. split; [congruence | exact Hrest].
  - right. destruct (date_new_overflow y m d) as (v & Hv & Hrest); [tauto |].
    exists v. split; [congruence | exact Hrest].
Qed.

Lemma date_new_ok_inv (y m d : Z) (self : date) :
  date_new y m d = Ok self ->
  self = mkdate y m d /\ valid_calendar_date y m d.
Proof.
  intros Hnew.
  assert (Hfits : fits_c_int y /\ fits_c_int m /\ fits_c_int d).
  { destruct (fits_c_int_dec y) as [Hy | Hy];
      [destruct (fits_c_int_dec m) as [Hm | Hm];
       [destruct (fits_c_int_dec d) as [Hd | Hd]; [tauto |] |] |];
      (destruct (date_new_overflow y m d) as (v & Hv & _); [tauto |]);
      rewrite Hv in Hnew; discriminate Hnew. }
  destruct Hfits as (Fy & Fm & Fd).
  rewrite date_new_checked in Hnew by assumption.
  revert Hnew. unfold _check_date_fields, MINYEAR, MAXYEAR.
  destruct ((1 <=? y) && (y <=? 9999)) eqn:Hy; simpl; [| discriminate].
  destruct ((1 <=? m) && (m <=? 12)) eqn:Hm; simpl; [| discriminate].
  destruct ((1 <=? d) && (d <=? _days_in_month y m)) eqn:Hd; simpl;
    [| discriminate].
  intros [= <-].
  apply andb_true_iff in Hy, Hm, Hd.
  rewrite !Z.leb_le in Hy, Hm, Hd.
  split; [reflexivity |].
  split; [lia |].
  exists (_days_in_month y m). split; [| lia].
  apply _days_in_month_has_days. lia.
Qed.


(** ** Construction *)

Lemma __new___combination (y d : Z) :
  __new__ y None (Some d) = Raise (InvalidCombination y None (Some d)).
Proof. reflexivity. Qed.

Lemma __new___date (y : Z) (m d : option Z) :
  ~ (m = None /\ d <> None) ->
  __new__ y m d =
    (self <- date_new y (or_one m) (or_one d) ;;
     Ok (mkfuzzy self (absent m) (absent d))).
Proof.
  intros Hcomb. destruct m as [m |], d as [d |]; try reflexivity.
  exfalso. apply Hcomb. split; congruence.
Qed.

Lemma __new___ok_inv (y : Z) (m d : option Z) (self : fuzzydate) :
  __new__ y m d = Ok self ->
  ~ (m = None /\ d <> None) /\
  valid_calendar_date y (or_one m) (or_one d) /\
  self = mkfuzzy (mkdate y (or_one m) (or_one d)) (absent m) (absent d).
Proof.
  intros Hnew.
  assert (Hcomb : ~ (m = None /\ d <> None)).
  { intros (-> & Hd). destruct d as [d |]; [| congruence].
    rewrite __new___combination in Hnew. discriminate. }
  split; [exact Hcomb |].
  rewrite __new___date in Hnew by exact Hcomb.
  destruct (date_new y (or_one m) (or_one d)) as [dt | e] eqn:Hdate;
    simpl in Hnew; [| discriminate].
  apply date_new_ok_inv in Hdate. destruct Hdate as (-> & Hvalid).
  split; [exact Hvalid | congruence].
Qed.

(** The ways the constructor fails: its own error, or one of the two of
    [date.__new__], the overflow being of an argument that does not fit. *)
Lemma __new___raises (y : Z) (m d : option Z) (e : exn) :
  __new__ y m d = Raise e ->
  e = InvalidCombination y m d \/
  (exists why, e = InvalidDate why) \/
  (exists v, e = Overflow v /\ ~ fits_c_int v /\
             (v = y \/ v = or_one m \/ v = or_one d)).
Proof.
  intros Hnew.
  assert (Hdate : forall m' d',
    bind (date_new y (or_one m') (or_one d'))
         (fun self => Ok (mkfuzzy self (absent m') (absent d'))) = Raise e ->
    (exists why, e = InvalidDate why) \/
    (exists v, e = Overflow v /\ ~ fits_c_int v /\
               (v = y \/ v = or_one m' \/ v = or_one d'))).
  { intros m' d' H.
    destruct (date_new y (or_one m') (or_one d')) as [dt | e'] eqn:Hd;
      simpl in H; [discriminate H |].
    injection H as ->. apply date_new_raises in Hd.
    destruct Hd as [(_ & _ & _ & Hwhy) | Hover]; tauto. }
  destruct m as [m |], d as [d |].
  - right. apply (Hdate (Some m) (Some d)), Hnew.
  - right. apply (Hdate (Some m) None), Hnew.
  - left. rewrite __new___combination in Hnew. congruence.
  - right. apply (Hdate None None), Hnew.
Qed.




(** ** Parsing *)

Lemma bind_ok_inv {A B : Type} (r : result A) (k : A -> result B) (b : B) :
  bind r k = Ok b -> exists a, r = Ok a /\ k a = Ok b.
Proof.
  destruct r as [a | e]; simpl; [eauto | discriminate].
Qed.

Lemma ten_characters (s : pystr) :
  List.length s = 10%nat ->
  exists c0 c1 c2 c3 c4 c5 c6 c7 c8 c9,
    s = [c0; c1; c2; c3; c4; c5; c6; c7; c8; c9].
Proof.
  intros H.
  do 10 (destruct s as [| ? s]; [discriminate H |]).
  destruct s; [| discriminate H].
  repeat eexists.
Qed.

Lemma well_shaped_inv (s : pystr) :
  well_shaped s ->
  exists c0 c1 c2 c3 c5 c6 c8 c9,
    s = [c0; c1; c2; c3; dash; c5; c6; dash; c8; c9].
Proof.
  intros (Hlen & H4 & H7).
  destruct (ten_characters s Hlen)
    as (c0 & c1 & c2 & c3 & c4 & c5 & c6 & c7 & c8 & c9 & ->).
  unfold at_ in H4, H7. simpl in H4, H7. subst c4 c7.
  repeat eexists.
Qed.

(** After the type and length tests, on the ten characters. *)
Lemma fuzzy_fromisoformat_ten (c0 c1 c2 c3 c4 c5 c6 c7 c8 c9 : char) :
  let s := [c0; c1; c2; c3; c4; c5; c6; c7; c8; c9] in
  fuzzy_fromisoformat (PyStr s) =
    (_ <- check_separators [c4; c7] ;;
     day <- parse_day s [c8; c9] ;;
     month <- parse_month s [c5; c6] [c8; c9] day ;;
     year <- parse_year [c0; c1; c2; c3] ;;
     __new__ year month day).
Proof. reflexivity. Qed.

Lemma check_separators_ok (c4 c7 : char) :
  c4 = dash -> c7 = dash -> check_separators [c4; c7] = Ok tt.
Proof. intros -> ->. reflexivity. Qed.

Lemma parse_day_spec (s : pystr) (c8 c9 : char) :
  parse_day s [c8; c9] =
    match PyInt.int [c8; c9] with
    | Some v => Ok (Some v)
    | None => if (c8 =? c9)%N then Ok None else Raise (InconsistentMarker s)
    end.
Proof.
  unfold parse_day. destruct (PyInt.int [c8; c9]); [reflexivity |].
  simpl. destruct (c8 =? c9)%N; reflexivity.
Qed.

Lemma parse_month_spec (s : pystr) (c5 c6 c8 c9 : char) (day : option Z) :
  parse_month s [c5; c6] [c8; c9] day =
    match PyInt.int [c5; c6] with
    | Some v => Ok (Some v)
    | None =>
        if (c5 =? c6)%N && (negb (absent day) || (c5 =? c8)%N)
        then Ok None else Raise (InconsistentMarker s)
    end.
Proof.
  unfold parse_month. destruct (PyInt.int [c5; c6]); [reflexivity |].
  simpl. destruct (c5 =? c6)%N; simpl; [| reflexivity].
  destruct day; simpl; [reflexivity |].
  destruct (c5 =? c8)%N; reflexivity.
Qed.

(** Every instance the parser returns was made by the constructor. *)
Lemma fuzzy_fromisoformat_legal (o : pyobj) (self : fuzzydate) :
  fuzzy_fromisoformat o = Ok self -> legal self.
Proof.
  destruct o as [s | | |]; try discriminate. unfold fuzzy_fromisoformat.
  destruct (negb (len s =? 10)); [discriminate |].
  intros H.
  repeat (apply bind_ok_inv in H; destruct H as (? & _ & H)).
  unfold legal. eauto.
Qed.

Lemma day_marker_bad_dec (s : pystr) :
  {day_marker_bad s} + {~ day_marker_bad s}.
Proof.
  unfold day_marker_bad.
  destruct (PyInt.int (slice s 8 10)) as [d |].
  - right. intros (H & _). discriminate H.
  - destruct (N.eq_dec (at_ s 8) (at_ s 9)) as [E | E].
    + right. tauto.
    + left. tauto.
Defined.

Lemma month_marker_bad_dec (s : pystr) :
  {month_marker_bad s} + {~ month_marker_bad s}.
Proof.
  unfold month_marker_bad.
  destruct (PyInt.int (slice s 5 7)) as [m |].
  - right. intros (H & _). discriminate H.
  - destruct (N.eq_dec (at_ s 5) (at_ s 6)) as [E | E]; [| left; tauto].
    destruct (PyInt.int (slice s 8 10)) as [d |].
    + right. intros (_ & [H | (H & _)]); [tauto | discriminate H].
    + destruct (N.eq_dec (at_ s 5) (at_ s 8)) as [E' | E'].
      * right. tauto.
      * left. tauto.
Defined.

(** The parser on a string of the right shape: the day marker, the month
    marker, the year, the constructor. *)
Lemma fuzzy_fromisoformat_stages (s : pystr) :
  well_shaped s ->
  fuzzy_fromisoformat (PyStr s) =
    if day_marker_bad_dec s then Raise (InconsistentMarker s)
    else if month_marker_bad_dec s then Raise (InconsistentMarker s)
    else match PyInt.int (slice s 0 4) with
         | None => Raise (InvalidYear (slice s 0 4))
         | Some y =>
             __new__ y (PyInt.int (slice s 5 7)) (PyInt.int (slice s 8 10))
         end.
Proof.
  intros Hs.
  destruct (well_shaped_inv s Hs)
    as (c0 & c1 & c2 & c3 & c5 & c6 & c8 & c9 & ->).
  rewrite fuzzy_fromisoformat_ten.
  rewrite check_separators_ok by reflexivity.
  cbv beta iota delta [bind].
  rewrite parse_day_spec.
  destruct (day_marker_bad_dec _) as [Hday | Hday];
    unfold day_marker_bad, at_ in Hday; simpl nth in Hday;
    change (slice _ 8 10) with [c8; c9] in Hday.
  { destruct Hday as (-> & Hne).
    apply N.eqb_neq in Hne. rewrite Hne. reflexivity. }
  assert (Hd : match PyInt.int [c8; c9] with
               | Some v => Ok (Some v)
               | None => if (c8 =? c9)%N then Ok None
                         else Raise (InconsistentMarker
                                [c0; c1; c2; c3; dash; c5; c6; dash; c8; c9])
               end = Ok (PyInt.int [c8; c9])).
  { destruct (PyInt.int [c8; c9]); [reflexivity |].
    destruct (N.eqb_spec c8 c9); [reflexivity | tauto]. }
  rewrite Hd. clear Hd Hday.
  rewrite parse_month_spec.
  change (slice _ 8 10) with [c8; c9].
  change (slice _ 5 7) with [c5; c6].
  change (slice _ 0 4) with [c0; c1; c2; c3].
  destruct (month_marker_bad_dec _) as [Hmonth | Hmonth];
    unfold month_marker_bad, at_ in Hmonth; simpl nth in Hmonth;
    change (slice _ 8 10) with [c8; c9] in Hmonth;
    change (slice _ 5 7) with [c5; c6] in Hmonth.
  { destruct Hmonth as (-> & Hne).
    destruct (N.eqb_spec c5 c6) as [E | E]; [| reflexivity].
    destruct Hne as [Hne | (-> & Hne)]; [contradiction |].
    apply N.eqb_neq in Hne. rewrite Hne. reflexivity. }
  assert (Hm : match PyInt.int [c5; c6] with
               | Some v => Ok (Some v)
               | None =>
                   if (c5 =? c6)%N
                      && (negb (absent (PyInt.int [c8; c9])) || (c5 =? c8)%N)
                   then Ok None
                   else Raise (InconsistentMarker
                          [c0; c1; c2; c3; dash; c5; c6; dash; c8; c9])
               end = Ok (PyInt.int [c5; c6])).
  { destruct (PyInt.int [c5; c6]); [reflexivity |].
    destruct (N.eqb_spec c5 c6) as [E | E]; [| tauto].
    destruct (PyInt.int [c8; c9]); [reflexivity |].
    destruct (N.eqb_spec c5 c8) as [E' | E']; [reflexivity | tauto]. }
  rewrite Hm. clear Hm Hmonth.
  unfold parse_year.
  destruct (PyInt.int [c0; c1; c2; c3]); reflexivity.
Qed.

(** The length test keeps every index in range. *)
Lemma fuzzy_fromisoformat_indexes (o : pyobj) :
  fuzzy_fromisoformat o <> Raise IndexError.
Proof.
  destruct o as [s | | |]; try discriminate.
  destruct (Nat.eq_dec (List.length s) 10) as [Hlen | Hlen].
  - destruct (ten_characters s Hlen)
      as (c0 & c1 & c2 & c3 & c4 & c5 & c6 & c7 & c8 & c9 & ->).
    rewrite fuzzy_fromisoformat_ten. simpl check_separators.
    destruct (negb (c4 =? 45)%N); [discriminate |].
    destruct (negb (c7 =? 45)%N); [discriminate |].
    cbv beta iota delta [bind].
    rewrite parse_day_spec.
    assert (Hrest : forall day,
      match parse_month [c0; c1; c2; c3; c4; c5; c6; c7; c8; c9]
              [c5; c6] [c8; c9] day with
      | Ok month =>
          match parse_year [c0; c1; c2; c3] with
          | Ok year => __new__ year month day
          | Raise e => Raise e
          end
      | Raise e => Raise e
      end <> Raise IndexError).
    { intros day. rewrite parse_month_spec. unfold parse_year.
      destruct (PyInt.int [c5; c6]);
        [| destruct (_ && _); [| discriminate]];
        (destruct (PyInt.int [c0; c1; c2; c3]); [| discriminate];
         intros H; apply __new___raises in H;
         destruct H as [H | [(why & H) | (v & H & _)]]; discriminate H). }
    destruct (PyInt.int [c8; c9]); [apply Hrest |].
    destruct (c8 =? c9)%N; [apply Hrest | discriminate].
  - unfold fuzzy_fromisoformat, len.
    destruct (Z.eqb_spec (Z.of_nat (List.length s)) 10); [lia | discriminate].
Qed.

(** C3. The parser's checks in their order, each clause assuming that the
    earlier checks passed: the type, the length, the separator at index 4
    and then at index 7, the day marker, the month marker, the year, and
    last the constructor on the year and the two fields (absent where they
    are no integers).  ["????-06-27"] gets as far as the year. *)
Theorem fuzzy_fromisoformat_check_order :
  (forall o, (forall s, o <> PyStr s) ->
     fuzzy_fromisoformat o = Raise TypeError) /\
  (forall s, List.length s <> 10%nat ->
     fuzzy_fromisoformat (PyStr s) = Raise (InvalidLength s)) /\
  (forall s, List.length s = 10%nat -> at_ s 4 <> dash ->
     fuzzy_fromisoformat (PyStr s) = Raise (InvalidSeparator (at_ s 4))) /\
  (forall s, List.length s = 10%nat -> at_ s 4 = dash -> at_ s 7 <> dash ->
     fuzzy_fromisoformat (PyStr s) = Raise (InvalidSeparator (at_ s 7))) /\
  (forall s, well_shaped s -> day_marker_bad s ->
     fuzzy_fromisoformat (PyStr s) = Raise (InconsistentMarker s)) /\
  (forall s, well_shaped s -> ~ day_marker_bad s -> month_marker_bad s ->
     fuzzy_fromisoformat (PyStr s) = Raise (InconsistentMarker s)) /\
  (forall s, well_shaped s -> ~ day_marker_bad s -> ~ month_marker_bad s ->
     PyInt.int (slice s 0 4) = None ->
     fuzzy_fromisoformat (PyStr s) = Raise (InvalidYear (slice s 0 4))) /\
  (forall s y, well_shaped s -> ~ day_marker_bad s -> ~ month_marker_bad s ->
     PyInt.int (slice s 0 4) = Some y ->
     fuzzy_fromisoformat (PyStr s) =
       __new__ y (PyInt.int (slice s 5 7)) (PyInt.int (slice s 8 10))) /\
  fuzzy_fromisoformat (PyStr (lit "????-06-27")) =
    Raise (InvalidYear (lit "????")).
Proof.
  repeat apply conj.
  - intros o Ho. destruct o; try reflexivity. exfalso. eapply Ho; eauto.
  - intros s Hlen. unfold fuzzy_fromisoformat, len.
    destruct (Z.of_nat (List.length s) =? 10) eqn:E; [| reflexivity].
    apply Z.eqb_eq in E. lia.
  - intros s Hlen.
    destruct (ten_characters s Hlen)
      as (c0 & c1 & c2 & c3 & c4 & c5 & c6 & c7 & c8 & c9 & ->).
    unfold at_. simpl nth. intros H4.
    rewrite fuzzy_fromisoformat_ten. simpl check_separators.
    apply N.eqb_neq in H4. unfold dash in H4. rewrite H4. reflexivity.
  - intros s Hlen.
    destruct (ten_characters s Hlen)
      as (c0 & c1 & c2 & c3 & c4 & c5 & c6 & c7 & c8 & c9 & ->).
    unfold at_. simpl nth. intros -> H7.
    rewrite fuzzy_fromisoformat_ten. simpl check_separators.
    apply N.eqb_neq in H7. unfold dash in H7. rewrite H7. reflexivity.
  - intros s Hs Hday. rewrite fuzzy_fromisoformat_stages by exact Hs.
    destruct (day_marker_bad_dec s); [reflexivity | contradiction].
  - intros s Hs Hday Hmonth. rewrite fuzzy_fromisoformat_stages by exact Hs.
    destruct (day_marker_bad_dec s); [reflexivity |].
    destruct (month_marker_bad_dec s); [reflexivity | contradiction].
  - intros s Hs Hday Hmonth Hyear.
    rewrite fuzzy_fromisoformat_stages by exact Hs.
    destruct (day_marker_bad_dec s); [contradiction |].
    destruct (month_marker_bad_dec s); [contradiction |].
    rewrite Hyear. reflexivity.
  - intros s y Hs Hday Hmonth Hyear.
    rewrite fuzzy_fromisoformat_stages by exact Hs.
    destruct (day_marker_bad_dec s); [contradiction |].
    destruct (month_marker_bad_dec s); [contradiction |].
    rewrite Hyear. reflexivity.
  - reflexivity.
Qed.

Lemma fuzzy_fromisoformat_check_order_witness :
  fuzzy_fromisoformat (PyBytes [50; 48]%N) = Raise TypeError /\
  fuzzy_fromisoformat (PyStr (lit "2020-6-27"))
    = Raise (InvalidLength (lit "2020-6-27")) /\
  fuzzy_fromisoformat (PyStr (lit "2020_06/27"))
    = Raise (InvalidSeparator 95%N) /\
  fuzzy_fromisoformat (PyStr (lit "2020-06/27"))
    = Raise (InvalidSeparator 47%N) /\
  fuzzy_fromisoformat (PyStr (lit "2020-##-?#"))
    = Raise (InconsistentMarker (lit "2020-##-?#")) /\
  fuzzy_fromisoformat (PyStr (lit "2020-#?-27"))
    = Raise (InconsistentMarker (lit "2020-#?-27")) /\
  fuzzy_fromisoformat (PyStr (lit "20?0-06-27"))
    = Raise (InvalidYear (lit "20?0")) /\
  fuzzy_fromisoformat (PyStr (lit "2020-06-??")) = __new__ 2020 (Some 6) None.
Proof.
  destruct fuzzy_fromisoformat_check_order
    as (Htype & Hlen & Hsep4 & Hsep7 & Hday & Hmonth & Hyear & Hnew & _).
  assert (Hshape : forall s, List.length s = 10%nat ->
            at_ s 4 = dash -> at_ s 7 = dash -> well_shaped s)
    by (intros s H1 H2 H3; repeat split; assumption).
  repeat apply conj.
  - apply Htype. intros s. discriminate.
  - apply Hlen. simpl. lia.
  - apply (Hsep4 (lit "2020_06/27")); [reflexivity |]. vm_compute. discriminate.
  - apply (Hsep7 (lit "2020-06/27")); [reflexivity | reflexivity |].
    vm_compute. discriminate.
  - apply Hday; [apply Hshape; reflexivity |].
    split; [reflexivity | vm_compute; discriminate].
  - apply Hmonth; [apply Hshape; reflexivity | |].
    + intros (H & _). vm_compute in H. discriminate H.
    + split; [reflexivity |]. left. vm_compute. discriminate.
  - apply (Hyear (lit "20?0-06-27")); [apply Hshape; reflexivity | | |].
    + intros (H & _). vm_compute in H. discriminate H.
    + intros (H & _). vm_compute in H. discriminate H.
    + reflexivity.
  - apply (Hnew (lit "2020-06-??")); [apply Hshape; reflexivity | | |].
    + intros (_ & H). apply H. reflexivity.
    + intros (H & _). vm_compute in H. discriminate H.
    + reflexivity.
Defined.

Lemma __new___not_inconsistent (y : Z) (m d : option Z) :
  is_inconsistent_marker (__new__ y m d) = false.
Proof.
  destruct (__new__ y m d) as [self | e] eqn:Hnew; [reflexivity |].
  apply __new___raises in Hnew.
  destruct Hnew as [-> | [(why & ->) | (v & -> & _)]]; reflexivity.
Qed.

(** C4. On a string of the right shape the parser fails with
    [InconsistentMarker] exactly when the day field is no integer and its
    two characters differ, or the month field is no integer and either its
    two characters differ or the day field is no integer too and the two
    fields start with different characters.  So a month marker next to an
    integer day is never compared with it: ["2020-##-??"] is an
    inconsistent marker, ["2020-##-27"] reaches the constructor and is
    refused there. *)
Theorem inconsistent_marker_iff :
  (forall s, well_shaped s ->
     (is_inconsistent_marker (fuzzy_fromisoformat (PyStr s)) = true <->
      day_marker_bad s \/ month_marker_bad s) /\
     (day_marker_bad s \/ month_marker_bad s ->
      fuzzy_fromisoformat (PyStr s) = Raise (InconsistentMarker s))) /\
  (forall s d, well_shaped s ->
     PyInt.int (slice s 8 10) = Some d ->
     PyInt.int (slice s 5 7) = None ->
     at_ s 5 = at_ s 6 ->
     is_inconsistent_marker (fuzzy_fromisoformat (PyStr s)) = false) /\
  fuzzy_fromisoformat (PyStr (lit "2020-##-??"))
    = Raise (InconsistentMarker (lit "2020-##-??")) /\
  fuzzy_fromisoformat (PyStr (lit "2020-##-27"))
    = Raise (InvalidCombination 2020 None (Some 27)).
Proof.
  assert (Hgood : forall s, well_shaped s ->
            ~ day_marker_bad s -> ~ month_marker_bad s ->
            is_inconsistent_marker (fuzzy_fromisoformat (PyStr s)) = false).
  { intros s Hs Hday Hmonth.
    rewrite fuzzy_fromisoformat_stages by exact Hs.
    destruct (day_marker_bad_dec s); [contradiction |].
    destruct (month_marker_bad_dec s); [contradiction |].
    destruct (PyInt.int (slice s 0 4)); [| reflexivity].
    apply __new___not_inconsistent. }
  assert (Hbad : forall s, well_shaped s ->
            day_marker_bad s \/ month_marker_bad s ->
            fuzzy_fromisoformat (PyStr s) = Raise (InconsistentMarker s)).
  { intros s Hs Hor.
    rewrite fuzzy_fromisoformat_stages by exact Hs.
    destruct (day_marker_bad_dec s); [reflexivity |].
    destruct (month_marker_bad_dec s); [reflexivity | tauto]. }
  repeat apply conj.
  - intros s Hs. split.
    + split.
      * intros Hinc.
        destruct (day_marker_bad_dec s) as [Hday | Hday]; [tauto |].
        destruct (month_marker_bad_dec s) as [Hmonth | Hmonth]; [tauto |].
        rewrite (Hgood s Hs Hday Hmonth) in Hinc. discriminate Hinc.
      * intros Hor. rewrite (Hbad s Hs Hor). reflexivity.
    + apply Hbad, Hs.
  - intros s d Hs Hd Hm E. apply Hgood; [exact Hs | |].
    + intros (H & _). congruence.
    + intros (_ & [H | (H & _)]); congruence.
  - reflexivity.
  - reflexivity.
Qed.

Lemma inconsistent_marker_iff_witness :
  is_inconsistent_marker (fuzzy_fromisoformat (PyStr (lit "2020-06-?#")))
    = true /\
  fuzzy_fromisoformat (PyStr (lit "2020-##-??"))
    = Raise (InconsistentMarker (lit "2020-##-??")) /\
  is_inconsistent_marker (fuzzy_fromisoformat (PyStr (lit "2020-##-27")))
    = false.
Proof.
  destruct inconsistent_marker_iff as (Hiff & Hcross & _).
  assert (Hshape : forall s, List.length s = 10%nat ->
            at_ s 4 = dash -> at_ s 7 = dash -> well_shaped s)
    by (intros s H1 H2 H3; repeat split; assumption).
  repeat apply conj.
  - apply (proj1 (Hiff (lit "2020-06-?#")
                     (Hshape (lit "2020-06-?#") eq_refl eq_refl eq_refl))).
    left. split; [reflexivity | vm_compute; discriminate].
  - apply (proj2 (Hiff (lit "2020-##-??")
                     (Hshape (lit "2020-##-??") eq_refl eq_refl eq_refl))).
    right. split; [reflexivity |]. right.
    split; [reflexivity | vm_compute; discriminate].
  - apply (Hcross (lit "2020-##-27") 27);
      [apply Hshape; reflexivity | reflexivity | reflexivity | reflexivity].
Defined.

(** ** The invariant *)

Lemma __new___invariant (y : Z) (m d : option Z) (self : fuzzydate) :
  __new__ y m d = Ok self -> fuzzy_invariant self.
Proof.
  intros Hnew. apply __new___ok_inv in Hnew.
  destruct Hnew as (Hcomb & Hvalid & ->).
  split; simpl.
  - destruct m as [m |], d as [d |]; simpl; try congruence.
    intros _. exfalso. apply Hcomb. split; congruence.
  - destruct m; simpl; [discriminate | reflexivity].
  - destruct d; simpl; [discriminate | reflexivity].
  - exact Hvalid.
Qed.

(** C5. Every instance returned by the constructor or by the parser has
    the invariant of the data model: a fuzzy month comes with a fuzzy day,
    a fuzzy field is stored as 1, and the stored year, month and day are a
    valid calendar date.  A method call leaves the receiver as it was. *)
Theorem invariant_holds :
  (forall y m d self, __new__ y m d = Ok self -> fuzzy_invariant self) /\
  (forall o self, fuzzy_fromisoformat o = Ok self -> fuzzy_invariant self) /\
  (forall op self, fst (invoke op self) = self).
Proof.
  repeat apply conj.
  - exact __new___invariant.
  - intros o self Hparse.
    destruct (fuzzy_fromisoformat_legal o self Hparse) as (y & m & d & Hnew).
    exact (__new___invariant y m d self Hnew).
  - intros [| marker | |] self; reflexivity.
Qed.

Lemma invariant_holds_witness :
  fuzzy_invariant (mkfuzzy (mkdate 2020 1 1) true true) /\
  fuzzy_invariant (mkfuzzy (mkdate 2020 6 1) false true).
Proof.
  split.
  - apply (proj1 invariant_holds 2020 None None). reflexivity.
  - apply (proj1 (proj2 invariant_holds) (PyStr (lit "2020-06-??"))).
    reflexivity.
Defined.

(** ** The disabled methods *)

(** C6. [fromisoformat] fails on every argument and [isoformat] on every
    instance, with a [NotImplementedError] whose message names the fuzzy
    method to use instead; neither ever returns. *)
Theorem strict_iso_disabled :
  (forall o, exists message,
     fromisoformat o = Raise (NotSupported message) /\
     class_of (NotSupported message) = PyNotImplementedError /\
     message_of (NotSupported message) = message /\
     occurs_in (lit "use `fuzzy_fromisoformat` instead") message) /\
  (forall self, exists message,
     isoformat self = Raise (NotSupported message) /\
     class_of (NotSupported message) = PyNotImplementedError /\
     message_of (NotSupported message) = message /\
     occurs_in (lit "use `fuzzy_isoformat` instead") message) /\
  (forall o, is_ok (fromisoformat o) = false) /\
  (forall self, is_ok (isoformat self) = false).
Proof.
  repeat apply conj.
  - intros o. eexists. repeat apply conj; try reflexivity.
    exists (lit "`fromisoformat` is not supported for fuzzy dates; "), [].
    reflexivity.
  - intros self. eexists. repeat apply conj; try reflexivity.
    exists (lit "`isoformat` is not supported for fuzzy dates; "), [].
    reflexivity.
  - reflexivity.
  - reflexivity.
Qed.

(** ** Formatting *)

(** A property checked on every number below a bound holds of each. *)
Lemma checked_below (P : Z -> bool) (bound : Z) :
  forallb (fun k => P (Z.of_nat k)) (seq 0 (Z.to_nat bound)) = true ->
  forall n, 0 <= n < bound -> P n = true.
Proof.
  intros Hall n Hn.
  rewrite forallb_forall in Hall.
  rewrite <- (Z2Nat.id n) by lia.
  apply Hall, in_seq. lia.
Qed.

Lemma zero_padded_ok_4 (n : Z) : 0 <= n < 10000 -> zero_padded_ok 4 n = true.
Proof.
  apply (checked_below (zero_padded_ok 4) 10000). vm_compute. reflexivity.
Qed.

Lemma zero_padded_ok_2 (n : Z) : 0 <= n < 100 -> zero_padded_ok 2 n = true.
Proof.
  apply (checked_below (zero_padded_ok 2) 100). vm_compute. reflexivity.
Qed.

Lemma zero_padded_ok_sound (width : nat) (n : Z) :
  zero_padded_ok width n = true ->
  zero_padded_decimal width n (PyFormat.zero_padded width n).
Proof.
  unfold zero_padded_ok, zero_padded_decimal.
  rewrite !andb_true_iff, Nat.eqb_eq, Z.eqb_eq, forallb_forall, Forall_forall.
  intros ((Hlen & Hdigits) & Hvalue).
  repeat split; try assumption;
    apply Hdigits in H; apply andb_true_iff in H;
    rewrite !N.leb_le in H; tauto.
Qed.

Lemma str_in_single (c : char) (hay : pystr) :
  str_in [c] hay = true <-> In c hay.
Proof.
  induction hay as [| h hay IH].
  - simpl. split; [discriminate | contradiction].
  - cbn [str_in startswith In].
    rewrite orb_true_iff, andb_true_iff, N.eqb_eq, IH.
    destruct hay; simpl; intuition congruence.
Qed.

(** A one-character string is in [string.digits] when its character is one
    of 0 to 9. *)
Lemma str_in_string_digits (c : char) :
  str_in [c] string_digits = true <-> decimal_digit c.
Proof.
  rewrite str_in_single. unfold decimal_digit.
  vm_compute string_digits. simpl In. lia.
Qed.

Lemma str_mul_2 (s : pystr) : str_mul s 2 = s ++ s.
Proof. unfold str_mul. rewrite app_nil_r. reflexivity. Qed.

Lemma marker_test (marker : pystr) :
  negb (len marker =? 1) || str_in marker string_digits = true <->
  List.length marker <> 1%nat \/ (exists c, marker = [c] /\ decimal_digit c).
Proof.
  unfold len.
  destruct marker as [| c [| c' rest]].
  - simpl. split; [left; discriminate | reflexivity].
  - change (Z.of_nat (List.length [c]) =? 1) with true.
    cbv beta iota delta [negb orb].
    rewrite str_in_string_digits. split.
    + intros H. right. eauto.
    + intros [H | (c' & [= <-] & H)]; [contradiction H; reflexivity | exact H].
  - replace (Z.of_nat (List.length (c :: c' :: rest)) =? 1) with false.
    + simpl. split; [left; discriminate | reflexivity].
    + symmetry. apply Z.eqb_neq. simpl List.length. lia.
Qed.

(** C7. [fuzzy_isoformat] fails, with [InvalidMarker], exactly when the
    marker is not one character long or is one of the decimal digits 0 to
    9 (the characters of [string.digits]).  Otherwise, on an instance with
    the invariant, it returns the year as four zero-padded decimal digits,
    ['-'], the month field, ['-'] and the day field, where the field of a
    fuzzy part is the marker twice and the field of a known part is its two
    zero-padded decimal digits. *)
Theorem fuzzy_isoformat_spec (self : fuzzydate) (marker : pystr) :
  let invalid :=
    List.length marker <> 1%nat \/
    (exists c, marker = [c] /\ decimal_digit c) in
  (invalid ->
     fuzzy_isoformat self (Some marker) = Raise (InvalidMarker marker)) /\
  (~ invalid -> is_ok (fuzzy_isoformat self (Some marker)) = true) /\
  (~ invalid -> fuzzy_invariant self ->
     exists yyyy mm dd,
       fuzzy_isoformat self (Some marker)
         = Ok (yyyy ++ [dash] ++ mm ++ [dash] ++ dd) /\
       zero_padded_decimal 4 (year self) yyyy /\
       (if _fuzzy_month self then mm = marker ++ marker
        else zero_padded_decimal 2 (month self) mm) /\
       (if _fuzzy_day self then dd = marker ++ marker
        else zero_padded_decimal 2 (day self) dd)).
Proof.
  intros invalid.
  pose proof (marker_test marker) as Htest. fold invalid in Htest.
  unfold fuzzy_isoformat.
  destruct (negb (len marker =? 1) || str_in marker string_digits) eqn:E.
  - repeat apply conj; intros; first [reflexivity | tauto].
  - assert (Hvalid : ~ invalid) by (rewrite <- Htest; discriminate).
    repeat apply conj; try tauto; try reflexivity.
    intros _ [_ _ _ Hdate].
    apply valid_calendar_date_bounds in Hdate.
    eexists _, _, _. split; [reflexivity |].
    split; [| split].
    + apply zero_padded_ok_sound, zero_padded_ok_4. lia.
    + destruct (_fuzzy_month self).
      * apply str_mul_2.
      * apply zero_padded_ok_sound, zero_padded_ok_2. lia.
    + destruct (_fuzzy_day self).
      * apply str_mul_2.
      * apply zero_padded_ok_sound, zero_padded_ok_2. lia.
Qed.

Lemma fuzzy_isoformat_spec_witness :
  fuzzy_isoformat (mkfuzzy (mkdate 2020 6 1) false true) (Some (lit "9"))
    = Raise (InvalidMarker (lit "9")) /\
  fuzzy_isoformat (mkfuzzy (mkdate 2020 6 1) false true) (Some (lit "###"))
    = Raise (InvalidMarker (lit "###")) /\
  exists yyyy mm dd,
    fuzzy_isoformat (mkfuzzy (mkdate 2020 6 1) false true) (Some (lit "%"))
      = Ok (yyyy ++ [dash] ++ mm ++ [dash] ++ dd) /\
    zero_padded_decimal 4 2020 yyyy /\
    zero_padded_decimal 2 6 mm /\
    dd = lit "%%".
Proof.
  repeat apply conj.
  - apply (fuzzy_isoformat_spec (mkfuzzy (mkdate 2020 6 1) false true)).
    right. exists 57%N. split; [reflexivity | vm_compute].
    split; discriminate.
  - apply (fuzzy_isoformat_spec (mkfuzzy (mkdate 2020 6 1) false true)).
    left. discriminate.
  - apply (proj2 (proj2 (fuzzy_isoformat_spec
             (mkfuzzy (mkdate 2020 6 1) false true) (lit "%")))).
    + intros [H | (c & [= <-] & H)].
      * apply H. reflexivity.
      * unfold decimal_digit in H. lia.
    + apply (__new___invariant 2020 (Some 6) None). reflexivity.
Defined.

(** C8. [str] of an instance is [fuzzy_isoformat] with the marker ['?'],
    and it always returns; for the instance made from 2020, 6 and no day
    it is ["2020-06-??"]. *)
Theorem str_is_fuzzy_isoformat :
  (forall self, str self = fuzzy_isoformat self (Some (lit "?"))) /\
  (forall self, is_ok (str self) = true) /\
  (exists self,
     __new__ 2020 (Some 6) None = Ok self /\
     str self = Ok (lit "2020-06-??")).
Proof.
  repeat apply conj.
  - intros self. reflexivity.
  - intros self. reflexivity.
  - eexists. split; reflexivity.
Qed.

(** ** The debug representation *)

(** C9. [repr] of an instance is the class name followed by the year and
    the logical month and day in brackets, an absent one written [None]
    whatever is stored for it; the instance made from 2020, 6 and no day,
    which stores day 1, reads [fuzzydate(2020, 6, None)]. *)
Theorem repr_shows_logical_fields :
  (forall self,
     __repr__ self =
       lit "fuzzydate" ++ lit "(" ++ PyFormat.str_of_int (year self)
         ++ lit ", " ++ str_of_optint (logical_month self)
         ++ lit ", " ++ str_of_optint (logical_day self) ++ lit ")") /\
  (forall dt,
     __repr__ (mkfuzzy dt false true) =
       lit "fuzzydate(" ++ PyFormat.str_of_int (year dt) ++ lit ", "
         ++ PyFormat.str_of_int (month dt) ++ lit ", None)") /\
  (forall dt,
     __repr__ (mkfuzzy dt true true) =
       lit "fuzzydate(" ++ PyFormat.str_of_int (year dt)
         ++ lit ", None, None)") /\
  (exists self,
     __new__ 2020 (Some 6) None = Ok self /\
     day self = 1 /\
     logical_day self = None /\
     __repr__ self = lit "fuzzydate(2020, 6, None)").
Proof.
  repeat apply conj.
  - intros self. reflexivity.
  - intros dt. unfold __repr__. simpl _fuzzy_month. simpl _fuzzy_day.
    cbv iota. unfold str_of_optint. simpl base.
    change (lit "fuzzydate(") with (__qualname__ ++ lit "(").
    change (lit ", None)") with (lit ", " ++ lit "None" ++ lit ")").
    rewrite <- !app_assoc. reflexivity.
  - intros dt. unfold __repr__. simpl _fuzzy_month. simpl _fuzzy_day.
    cbv iota. unfold str_of_optint. simpl base.
    change (lit "fuzzydate(") with (__qualname__ ++ lit "(").
    change (lit ", None, None)")
      with (lit ", " ++ lit "None" ++ lit ", " ++ lit "None" ++ lit ")").
    rewrite <- !app_assoc. reflexivity.
  - eexists. repeat split; reflexivity.
Qed.

(** ** Comparison and hashing *)

Lemma _cmp_int_zero (x y : Z) : _cmp_int x y = 0 <-> x = y.
Proof.
  unfold _cmp_int.
  destruct (Z.eqb_spec x y); [tauto |].
  destruct (x <? y); split; (discriminate || contradiction).
Qed.

Lemma date_cmp_zero (a b : date) : date_cmp a b = 0 <-> a = b.
Proof.
  destruct a as [y m d], b as [y2 m2 d2].
  unfold date_cmp, _cmp_triple. simpl.
  destruct (Z.eqb_spec y y2) as [-> | Hy]; simpl.
  - destruct (Z.eqb_spec m m2) as [-> | Hm]; simpl.
    + rewrite _cmp_int_zero. split; [intros ->; reflexivity | congruence].
    + rewrite _cmp_int_zero. split; congruence.
  - rewrite _cmp_int_zero. split; congruence.
Qed.

(** [date._cmp] tells which of two dates is the earlier. *)
Lemma date_cmp_spec (a b : date) :
  (date_cmp a b = -1 /\ earlier a b) \/
  (date_cmp a b = 0 /\ a = b) \/
  (date_cmp a b = 1 /\ earlier b a).
Proof.
  destruct a as [y m d], b as [y2 m2 d2].
  unfold date_cmp, _cmp_triple, _cmp_int, earlier. simpl.
  destruct (Z.eqb_spec y y2) as [-> | Hy]; simpl.
  - destruct (Z.eqb_spec m m2) as [-> | Hm]; simpl.
    + destruct (Z.eqb_spec d d2) as [-> | Hd].
      * right. left. split; reflexivity.
      * destruct (Z.ltb_spec d d2); [left | right; right]; split;
          (reflexivity || lia).
    + destruct (Z.ltb_spec m m2); [left | right; right]; split;
        (reflexivity || lia).
  - destruct (Z.ltb_spec y y2); [left | right; right]; split;
      (reflexivity || lia).
Qed.

Lemma earlier_irreflexive (a b : date) : earlier a b -> a <> b.
Proof. unfold earlier. intros H ->. lia. Qed.

Lemma earlier_asymmetric (a b : date) : earlier a b -> ~ earlier b a.
Proof. unfold earlier. lia. Qed.

(** C10. The inherited comparison and hash read the stored date only,
    whatever the flags: two [date] objects, fuzzy or plain, are equal
    exactly when their stored year, month and day agree, one is before the
    other exactly when its stored date is the earlier in the calendar
    (and likewise for [<=], [>], [>=]), and objects with the same stored
    date hash alike.  The instance made from 2020, 6 and no day equals the
    one made from 2020, 6 and 1 and the plain date 2020-06-01, though its
    logical day and its string differ from those of the second. *)
Theorem comparison_ignores_fuzziness (hash_bytes : list Z -> Z) :
  (forall a b, date_eq a b = true <-> stored a = stored b) /\
  (forall a b, date_lt a b = true <-> earlier (stored a) (stored b)) /\
  (forall a b, date_gt a b = true <-> earlier (stored b) (stored a)) /\
  (forall a b, date_le a b = true <->
               earlier (stored a) (stored b) \/ stored a = stored b) /\
  (forall a b, date_ge a b = true <->
               earlier (stored b) (stored a) \/ stored a = stored b) /\
  (forall a b a' b', stored a = stored a' -> stored b = stored b' ->
     date_eq a b = date_eq a' b' /\
     date_lt a b = date_lt a' b' /\ date_gt a b = date_gt a' b' /\
     date_le a b = date_le a' b' /\ date_ge a b = date_ge a' b') /\
  (forall a b, stored a = stored b ->
     date_hash hash_bytes a = date_hash hash_bytes b /\
     date_lt a b = false /\ date_gt a b = false /\
     date_le a b = true /\ date_ge a b = true) /\
  (forall dt fm fd fm' fd',
     date_eq (Fuzzy (mkfuzzy dt fm fd)) (Fuzzy (mkfuzzy dt fm' fd')) = true /\
     date_eq (Fuzzy (mkfuzzy dt fm fd)) (Plain dt) = true) /\
  (exists f g dt,
     __new__ 2020 (Some 6) None = Ok f /\
     __new__ 2020 (Some 6) (Some 1) = Ok g /\
     date_new 2020 6 1 = Ok dt /\
     date_eq (Fuzzy f) (Fuzzy g) = true /\
     date_eq (Fuzzy f) (Plain dt) = true /\
     date_hash hash_bytes (Fuzzy f) = date_hash hash_bytes (Fuzzy g) /\
     date_hash hash_bytes (Fuzzy f) = date_hash hash_bytes (Plain dt) /\
     logical_day f <> logical_day g /\
     str f <> str g).
Proof.
  assert (Heq : forall a b, date_eq a b = true <-> stored a = stored b).
  { intros a b. unfold date_eq. rewrite Z.eqb_eq. apply date_cmp_zero. }
  assert (Hcases : forall a b : dateobj,
    (date_cmp (stored a) (stored b) = -1 /\ earlier (stored a) (stored b) /\
     stored a <> stored b /\ ~ earlier (stored b) (stored a)) \/
    (date_cmp (stored a) (stored b) = 0 /\ stored a = stored b /\
     ~ earlier (stored a) (stored b) /\ ~ earlier (stored b) (stored a)) \/
    (date_cmp (stored a) (stored b) = 1 /\ earlier (stored b) (stored a) /\
     stored a <> stored b /\ ~ earlier (stored a) (stored b))).
  { intros a b.
    destruct (date_cmp_spec (stored a) (stored b))
      as [(Hc & He) | [(Hc & He) | (Hc & He)]].
    - left. repeat split; try assumption.
      + apply earlier_irreflexive, He.
      + apply earlier_asymmetric, He.
    - right. left. repeat split; try assumption;
        rewrite He; intros H; apply earlier_irreflexive in H; congruence.
    - right. right. repeat split; try assumption.
      + intros E. apply earlier_irreflexive in He. congruence.
      + apply earlier_asymmetric, He. }
  repeat apply conj.
  - exact Heq.
  - intros a b. unfold date_lt.
    destruct (Hcases a b) as [(-> & H) | [(-> & H) | (-> & H)]];
      simpl; intuition discriminate.
  - intros a b. unfold date_gt.
    destruct (Hcases a b) as [(-> & H) | [(-> & H) | (-> & H)]];
      simpl; intuition discriminate.
  - intros a b. unfold date_le.
    destruct (Hcases a b) as [(-> & H) | [(-> & H) | (-> & H)]];
      simpl; intuition discriminate.
  - intros a b. unfold date_ge.
    destruct (Hcases a b) as [(-> & H) | [(-> & H) | (-> & H)]];
      simpl; intuition discriminate.
  - intros a b a' b' Ha Hb.
    unfold date_eq, date_lt, date_gt, date_le, date_ge.
    rewrite Ha, Hb. repeat split.
  - intros a b Hab.
    unfold date_hash, date_lt, date_gt, date_le, date_ge.
    rewrite (proj2 (date_cmp_zero _ _) Hab), Hab.
    repeat split.
  - intros dt fm fd fm' fd'. split; apply Heq; reflexivity.
  - eexists _, _, _.
    repeat apply conj; try reflexivity; vm_compute; discriminate.
Qed.

Lemma comparison_ignores_fuzziness_witness :
  date_hash (fun bytes => fold_left Z.add bytes 0)
            (Fuzzy (mkfuzzy (mkdate 2020 6 1) false true))
    = date_hash (fun bytes => fold_left Z.add bytes 0)
                (Plain (mkdate 2020 6 1)) /\
  date_lt (Fuzzy (mkfuzzy (mkdate 2020 6 1) false true))
          (Plain (mkdate 2020 6 1)) = false /\
  date_lt (Fuzzy (mkfuzzy (mkdate 2020 1 1) true true))
          (Fuzzy (mkfuzzy (mkdate 2020 6 1) false true))
    = date_lt (Plain (mkdate 2020 1 1)) (Plain (mkdate 2020 6 1)).
Proof.
  destruct (comparison_ignores_fuzziness
              (fun bytes => fold_left Z.add bytes 0))
    as (_ & _ & _ & _ & _ & Hsame & Hequal & _).
  destruct (Hequal (Fuzzy (mkfuzzy (mkdate 2020 6 1) false true))
                   (Plain (mkdate 2020 6 1)) eq_refl)
    as (Hhash & Hlt & _).
  destruct (Hsame (Fuzzy (mkfuzzy (mkdate 2020 1 1) true true))
                  (Fuzzy (mkfuzzy (mkdate 2020 6 1) false true))
                  (Plain (mkdate 2020 1 1)) (Plain (mkdate 2020 6 1))
                  eq_refl eq_refl)
    as (_ & Hlt' & _).
  repeat split; assumption.
Defined.

(** ** The round trip *)

(** A code point without decimal value is no ASCII digit. *)
Lemma not_decimal_not_digit (c : char) :
  PyInt.Py_UNICODE_TODECIMAL c = None -> PyInt.digit_value c = None.
Proof.
  unfold PyInt.Py_UNICODE_TODECIMAL, PyInt.digit_value.
  destruct ((48 <=? c)%N && (c <=? 57)%N); [discriminate | reflexivity].
Qed.

(** A doubled character that has no decimal value is no integer. *)
Lemma int_marker_pair (c : char) :
  PyInt.Py_UNICODE_TODECIMAL c = None -> PyInt.int [c; c] = None.
Proof.
  intros Hdec. pose proof (not_decimal_not_digit c Hdec) as Hdig.
  unfold PyInt.int, PyInt.transform, PyInt.is_ascii. cbn [forallb].
  destruct (N.ltb_spec c 128) as [Hascii | Hwide]; cbn [andb].
  - unfold PyInt.PyLong_FromString. cbn [PyInt.skip_space].
    destruct (PyInt.Py_ISSPACE c) eqn:Hspace; [reflexivity |].
    destruct (N.eqb_spec c 43) as [-> | Hplus]; [reflexivity |].
    destruct (N.eqb_spec c 45) as [-> | Hminus]; [reflexivity |].
    destruct (N.eqb_spec c 95) as [-> | Hunder]; [reflexivity |].
    cbn [PyInt.scan].
    destruct (N.eqb_spec c 95); [contradiction |].
    rewrite Hdig. reflexivity.
  - cbn [PyInt.transform_loop].
    destruct (N.ltb_spec c 127) as [H | _]; [lia |].
    destruct (PyInt.Py_UNICODE_ISSPACE c); [reflexivity |].
    rewrite Hdec. reflexivity.
Qed.

Lemma int_reads_back_4 (n : Z) : 0 <= n < 10000 -> int_reads_back 4 n = true.
Proof.
  apply (checked_below (int_reads_back 4) 10000). vm_compute. reflexivity.
Qed.

Lemma int_reads_back_2 (n : Z) : 0 <= n < 100 -> int_reads_back 2 n = true.
Proof.
  apply (checked_below (int_reads_back 2) 100). vm_compute. reflexivity.
Qed.

Lemma int_reads_back_sound (width : nat) (n : Z) :
  int_reads_back width n = true ->
  List.length (PyFormat.zero_padded width n) = width /\
  PyInt.int (PyFormat.zero_padded width n) = Some n.
Proof.
  unfold int_reads_back. rewrite andb_true_iff, Nat.eqb_eq.
  intros (Hlen & Hint). split; [exact Hlen |].
  destruct (PyInt.int _) as [v |]; [| discriminate].
  apply Z.eqb_eq in Hint. congruence.
Qed.

Lemma year_field (y : Z) :
  0 <= y < 10000 ->
  exists c0 c1 c2 c3,
    PyFormat.zero_padded 4 y = [c0; c1; c2; c3] /\
    PyInt.int [c0; c1; c2; c3] = Some y.
Proof.
  intros Hy.
  destruct (int_reads_back_sound 4 y (int_reads_back_4 y Hy)) as (Hlen & Hint).
  destruct (PyFormat.zero_padded 4 y) as [| c0 [| c1 [| c2 [| c3 [| ? ?]]]]];
    try discriminate Hlen.
  eauto 6.
Qed.

Lemma two_digit_field (n : Z) :
  0 <= n < 100 ->
  exists a b,
    PyFormat.zero_padded 2 n = [a; b] /\ PyInt.int [a; b] = Some n.
Proof.
  intros Hn.
  destruct (int_reads_back_sound 2 n (int_reads_back_2 n Hn)) as (Hlen & Hint).
  destruct (PyFormat.zero_padded 2 n) as [| a [| b [| ? ?]]];
    try discriminate Hlen.
  eauto.
Qed.

(** X1. Formatting an instance the constructor made with a marker that
    has no decimal value and parsing the result gives the instance back. *)
Lemma roundtrip_non_decimal_marker (self : fuzzydate) (c : char) :
  legal self ->
  PyInt.Py_UNICODE_TODECIMAL c = None ->
  exists s,
    fuzzy_isoformat self (Some [c]) = Ok s /\
    fuzzy_fromisoformat (PyStr s) = Ok self.
Proof.
  intros (y & m & d & Hnew) Hdec.
  pose proof (int_marker_pair c Hdec) as Hpair.
  destruct (__new___ok_inv y m d self Hnew) as (Hcomb & Hvalid & Hself).
  apply valid_calendar_date_bounds in Hvalid.
  destruct Hvalid as (Hy & Hm & Hd).
  destruct (year_field y ltac:(lia)) as (c0 & c1 & c2 & c3 & Hyyyy & Hyint).
  destruct (two_digit_field (or_one m) ltac:(lia)) as (m0 & m1 & Hmm & Hmint).
  destruct (two_digit_field (or_one d) ltac:(lia)) as (d0 & d1 & Hdd & Hdint).
  assert (Hmarker : negb (len [c] =? 1) || str_in [c] string_digits = false).
  { change (len [c] =? 1) with true. cbv beta iota delta [negb orb].
    destruct (str_in [c] string_digits) eqn:E; [| reflexivity].
    apply str_in_string_digits in E. unfold decimal_digit in E.
    unfold PyInt.Py_UNICODE_TODECIMAL in Hdec.
    replace ((48 <=? c)%N && (c <=? 57)%N) with true in Hdec;
      [discriminate |].
    symmetry. apply andb_true_iff. split; apply N.leb_le; lia. }
  unfold fuzzy_isoformat. rewrite Hmarker.
  eexists. split; [reflexivity |].
  subst self. cbn [base year month day _fuzzy_month _fuzzy_day].
  rewrite Hyyyy. rewrite <- Hnew.
  destruct m as [m |], d as [d |]; cbn [absent or_one] in *.
  - rewrite Hmm, Hdd. cbn [app lit map list_ascii_of_string N_of_ascii].
    rewrite fuzzy_fromisoformat_ten. 
    rewrite check_separators_ok by reflexivity. cbv beta iota delta [bind].
    rewrite parse_day_spec, Hdint.
    rewrite parse_month_spec, Hmint.
    unfold parse_year. rewrite Hyint. reflexivity.
  - rewrite Hmm. cbn [app lit map list_ascii_of_string N_of_ascii str_mul].
    rewrite fuzzy_fromisoformat_ten.
    rewrite check_separators_ok by reflexivity. cbv beta iota delta [bind].
    rewrite parse_day_spec, Hpair, N.eqb_refl.
    rewrite parse_month_spec, Hmint.
    unfold parse_year. rewrite Hyint. reflexivity.
  - exfalso. apply Hcomb. split; congruence.
  - cbn [app lit map list_ascii_of_string N_of_ascii str_mul].
    rewrite fuzzy_fromisoformat_ten.
    rewrite check_separators_ok by reflexivity. cbv beta iota delta [bind].
    rewrite parse_day_spec, Hpair, N.eqb_refl.
    rewrite parse_month_spec, Hpair, N.eqb_refl.
    unfold parse_year. rewrite Hyint. reflexivity.
Qed.

(** C1. The round trip through [fuzzy_isoformat] and [fuzzy_fromisoformat]
    at the marker U+0661, ARABIC-INDIC DIGIT ONE: the marker is accepted,
    being none of the characters of [string.digits], and written twice in
    the day field; [int] reads that field as 11, so the parser returns the
    exact date 2020-06-11 where the fuzzy 2020-06 went in.  With U+0663,
    digit three, the field reads 33 and [date] refuses the day. *)
Theorem roundtrip_unicode_digit_marker :
  exists self,
    __new__ 2020 (Some 6) None = Ok self /\
    _fuzzy_day self = true /\
    PyInt.Py_UNICODE_TODECIMAL 0x661%N = Some 1%N /\
    fuzzy_isoformat self (Some [0x661%N])
      = Ok (lit "2020-06-" ++ [0x661; 0x661]%N) /\
    fuzzy_fromisoformat (PyStr (lit "2020-06-" ++ [0x661; 0x661]%N))
      = Ok (mkfuzzy (mkdate 2020 6 11) false false) /\
    fuzzy_isoformat self (Some [0x663%N])
      = Ok (lit "2020-06-" ++ [0x663; 0x663]%N) /\
    fuzzy_fromisoformat (PyStr (lit "2020-06-" ++ [0x663; 0x663]%N))
      = Raise (InvalidDate (DayOutOfRange 33)).
Proof.
  eexists. repeat apply conj; vm_compute; reflexivity.
Qed.

(** ** Further properties of the parser *)

(** The logical values of an instance the constructor returns are its
    arguments. *)
Lemma __new___logical (y : Z) (m d : option Z) (self : fuzzydate) :
  __new__ y m d = Ok self ->
  year self = y /\ logical_month self = m /\ logical_day self = d.
Proof.
  intros Hnew. apply __new___ok_inv in Hnew.
  destruct Hnew as (_ & _ & ->).
  destruct m, d; repeat split; reflexivity.
Qed.

(** An instance is the one the constructor makes of its logical values. *)
Lemma legal_logical (self : fuzzydate) :
  legal self ->
  __new__ (year self) (logical_month self) (logical_day self) = Ok self.
Proof.
  intros (y & m & d & Hnew).
  destruct (__new___logical y m d self Hnew) as (-> & -> & ->).
  exact Hnew.
Qed.

(** A string the parser accepts has the right shape and consistent
    markers, and the instance is made of its three fields. *)
Lemma fuzzy_fromisoformat_ok_inv (s : pystr) (self : fuzzydate) :
  fuzzy_fromisoformat (PyStr s) = Ok self ->
  well_shaped s /\ ~ day_marker_bad s /\ ~ month_marker_bad s /\
  exists y,
    PyInt.int (slice s 0 4) = Some y /\
    __new__ y (PyInt.int (slice s 5 7)) (PyInt.int (slice s 8 10)) = Ok self.
Proof.
  intros Hparse.
  assert (Hshape : well_shaped s).
  { destruct (Nat.eq_dec (List.length s) 10) as [Hlen | Hlen].
    - split; [exact Hlen |].
      destruct (ten_characters s Hlen)
        as (c0 & c1 & c2 & c3 & c4 & c5 & c6 & c7 & c8 & c9 & ->).
      rewrite fuzzy_fromisoformat_ten in Hparse.
      simpl check_separators in Hparse. unfold at_, dash. simpl nth.
      destruct (N.eqb_spec c4 45) as [-> | _]; [| discriminate Hparse].
      destruct (N.eqb_spec c7 45) as [-> | _]; [| discriminate Hparse].
      split; reflexivity.
    - exfalso. revert Hparse. unfold fuzzy_fromisoformat, len.
      destruct (Z.eqb_spec (Z.of_nat (List.length s)) 10);
        [lia | discriminate]. }
  rewrite fuzzy_fromisoformat_stages in Hparse by exact Hshape.
  destruct (day_marker_bad_dec s) as [| Hday]; [discriminate Hparse |].
  destruct (month_marker_bad_dec s) as [| Hmonth]; [discriminate Hparse |].
  destruct (PyInt.int (slice s 0 4)) as [y |]; [| discriminate Hparse].
  eauto 6.
Qed.

(** The parser on ten characters with both separators, when the year
    reads as [y] and each marker field is one character twice, the same in
    both fields if both are markers. *)
Lemma fuzzy_fromisoformat_chars (c0 c1 c2 c3 m0 m1 d0 d1 : char) (y : Z) :
  PyInt.int [c0; c1; c2; c3] = Some y ->
  (PyInt.int [d0; d1] = None -> d0 = d1) ->
  (PyInt.int [m0; m1] = None ->
   m0 = m1 /\ (PyInt.int [d0; d1] = None -> m0 = d0)) ->
  fuzzy_fromisoformat (PyStr [c0; c1; c2; c3; dash; m0; m1; dash; d0; d1])
    = __new__ y (PyInt.int [m0; m1]) (PyInt.int [d0; d1]).
Proof.
  intros Hyear Hday Hmonth.
  rewrite fuzzy_fromisoformat_stages by (repeat split; reflexivity).
  destruct (day_marker_bad_dec _) as [(H & Hne) | _].
  { exfalso. apply Hne, Hday, H. }
  destruct (month_marker_bad_dec _) as [(H & Hne) | _].
  { exfalso. destruct (Hmonth H) as (E & E').
    destruct Hne as [Hne | (H' & Hne)]; [exact (Hne E) | exact (Hne (E' H'))]. }
  change (slice _ 0 4) with [c0; c1; c2; c3]. rewrite Hyear. reflexivity.
Qed.

(** ** Further properties of the formatter *)

Lemma marker_accepted (c : char) :
  ~ decimal_digit c ->
  negb (len [c] =? 1) || str_in [c] string_digits = false.
Proof.
  intros Hc. change (len [c] =? 1) with true.
  cbv beta iota delta [negb orb].
  destruct (str_in [c] string_digits) eqn:E; [| reflexivity].
  apply str_in_string_digits in E. contradiction.
Qed.

(** The ten characters [fuzzy_isoformat] writes for an instance the
    constructor made: a year that reads back, the separators, and in each
    field the marker twice or a number that reads back. *)
Lemma fuzzy_isoformat_chars (self : fuzzydate) (c : char) :
  legal self -> ~ decimal_digit c ->
  exists c0 c1 c2 c3 m0 m1 d0 d1,
    fuzzy_isoformat self (Some [c])
      = Ok [c0; c1; c2; c3; dash; m0; m1; dash; d0; d1] /\
    PyInt.int [c0; c1; c2; c3] = Some (year self) /\
    (if _fuzzy_month self then m0 = c /\ m1 = c
     else PyInt.int [m0; m1] = Some (month self)) /\
    (if _fuzzy_day self then d0 = c /\ d1 = c
     else PyInt.int [d0; d1] = Some (day self)).
Proof.
  intros (y & m & d & Hnew) Hc.
  destruct (__new___ok_inv y m d self Hnew) as (_ & Hvalid & ->).
  apply valid_calendar_date_bounds in Hvalid.
  destruct Hvalid as (Hy & Hm & Hd).
  destruct (year_field y ltac:(lia)) as (c0 & c1 & c2 & c3 & Hyyyy & Hyint).
  destruct (two_digit_field (or_one m) ltac:(lia)) as (m0 & m1 & Hmm & Hmint).
  destruct (two_digit_field (or_one d) ltac:(lia)) as (d0 & d1 & Hdd & Hdint).
  unfold fuzzy_isoformat. rewrite (marker_accepted c Hc).
  cbn [base year month day _fuzzy_month _fuzzy_day].
  rewrite Hyyyy, Hmm, Hdd.
  destruct m as [m |], d as [d |]; cbn [absent or_one] in *;
    do 8 eexists; (split; [reflexivity |]); auto.
Qed.

(** ** Decimal digits in a marker field *)

Lemma decimal_blocks_above :
  forall b, In b PyInt.decimal_blocks -> (0x660 <= b)%N.
Proof.
  assert (H : forallb (fun b => (0x660 <=? b)%N) PyInt.decimal_blocks = true)
    by (vm_compute; reflexivity).
  rewrite forallb_forall in H. intros b Hb. apply N.leb_le, H, Hb.
Qed.

(** A decimal value is below ten, and outside ASCII the code point is
    above the Latin ranges. *)
Lemma Py_UNICODE_TODECIMAL_some (c d : N) :
  PyInt.Py_UNICODE_TODECIMAL c = Some d ->
  (d < 10)%N /\ (decimal_digit c /\ c = (48 + d)%N \/ (0x660 <= c)%N).
Proof.
  unfold PyInt.Py_UNICODE_TODECIMAL, decimal_digit.
  destruct ((48 <=? c)%N && (c <=? 57)%N) eqn:Eascii.
  - apply andb_true_iff in Eascii. rewrite !N.leb_le in Eascii.
    intros [= <-]. lia.
  - destruct ((0x1d7ce <=? c)%N && (c <=? 0x1d7ff)%N) eqn:Emath.
    + apply andb_true_iff in Emath. rewrite !N.leb_le in Emath.
      intros [= <-]. split; [apply N.mod_lt; discriminate | lia].
    + destruct (find _ PyInt.decimal_blocks) as [b |] eqn:Efind;
        [| discriminate].
      intros [= <-]. apply find_some in Efind. destruct Efind as (Hin & Hb).
      apply decimal_blocks_above in Hin.
      apply andb_true_iff in Hb. rewrite N.leb_le, N.ltb_lt in Hb. lia.
Qed.

(** White space has no decimal value. *)
Lemma space_not_decimal (c : N) :
  (0x660 <= c)%N -> PyInt.Py_UNICODE_ISSPACE c = true ->
  PyInt.Py_UNICODE_TODECIMAL c = None.
Proof.
  intros Hc Hspace. unfold PyInt.Py_UNICODE_ISSPACE in Hspace.
  repeat rewrite ?orb_true_iff, ?andb_true_iff, ?N.eqb_eq, ?N.leb_le in Hspace.
  assert (Hcases : In c [0x1680; 0x2000; 0x2001; 0x2002; 0x2003; 0x2004;
                         0x2005; 0x2006; 0x2007; 0x2008; 0x2009; 0x200a;
                         0x2028; 0x2029; 0x202f; 0x205f; 0x3000]%N)
    by (simpl; lia).
  simpl in Hcases.
  repeat (destruct Hcases as [<- | Hcases]; [vm_compute; reflexivity |]).
  contradiction.
Qed.

(** A decimal digit written twice reads as a number. *)
Lemma int_digit_pair (c : char) (d : N) :
  PyInt.Py_UNICODE_TODECIMAL c = Some d ->
  PyInt.int [c; c] = Some (Z.of_N (11 * d)).
Proof.
  intros Hdec.
  destruct (Py_UNICODE_TODECIMAL_some c d Hdec) as (Hd & Hc).
  assert (Hascii : PyInt.int [(48 + d)%N; (48 + d)%N]
                     = Some (Z.of_N (11 * d)) /\
                   PyInt.PyLong_FromString [(48 + d)%N; (48 + d)%N]
                     = Some (Z.of_N (11 * d))).
  { assert (Hcases : In d [0; 1; 2; 3; 4; 5; 6; 7; 8; 9]%N) by (simpl; lia).
    simpl in Hcases.
    repeat (destruct Hcases as [<- | Hcases];
            [split; vm_compute; reflexivity |]).
    contradiction. }
  destruct Hc as [(_ & ->) | Hwide]; [exact (proj1 Hascii) |].
  unfold PyInt.int, PyInt.transform, PyInt.is_ascii. cbn [forallb].
  destruct (N.ltb_spec c 128) as [H | _]; [lia |]. cbn [andb].
  cbn [PyInt.transform_loop].
  destruct (N.ltb_spec c 127) as [H | _]; [lia |].
  destruct (PyInt.Py_UNICODE_ISSPACE c) eqn:Hspace.
  { rewrite (space_not_decimal c Hwide Hspace) in Hdec. discriminate. }
  rewrite Hdec.
  exact (proj2 Hascii).
Qed.

(** A character written twice is no integer exactly when it has no decimal
    value. *)
Lemma int_marker_pair_iff (c : char) :
  PyInt.int [c; c] = None <-> PyInt.Py_UNICODE_TODECIMAL c = None.
Proof.
  split; [| apply int_marker_pair].
  destruct (PyInt.Py_UNICODE_TODECIMAL c) as [d |] eqn:Hdec; [| reflexivity].
  intros Hint. pose proof (int_digit_pair c d Hdec) as Hpair.
  congruence.
Qed.

(** The round trip for a marker that, written twice, is no integer. *)
Lemma format_parse_pair (self : fuzzydate) (c : char) :
  legal self -> ~ decimal_digit c -> PyInt.int [c; c] = None ->
  exists s,
    fuzzy_isoformat self (Some [c]) = Ok s /\
    fuzzy_fromisoformat (PyStr s) = Ok self.
Proof.
  intros Hlegal Hc Hpair.
  destruct (fuzzy_isoformat_chars self c Hlegal Hc)
    as (c0 & c1 & c2 & c3 & m0 & m1 & d0 & d1 & Hfmt & Hy & Hm & Hd).
  eexists. split; [exact Hfmt |].
  rewrite <- (legal_logical self Hlegal). unfold logical_month, logical_day.
  assert (Hmint : PyInt.int [m0; m1]
                  = if _fuzzy_month self then None else Some (month self))
    by (destruct (_fuzzy_month self);
        [destruct Hm as (-> & ->); exact Hpair | exact Hm]).
  assert (Hdint : PyInt.int [d0; d1]
                  = if _fuzzy_day self then None else Some (day self))
    by (destruct (_fuzzy_day self);
        [destruct Hd as (-> & ->); exact Hpair | exact Hd]).
  rewrite <- Hmint, <- Hdint.
  apply fuzzy_fromisoformat_chars; [exact Hy | |].
  - destruct (_fuzzy_day self); [destruct Hd as (-> & ->); reflexivity |].
    congruence.
  - destruct (_fuzzy_month self); [| congruence].
    destruct Hm as (-> & ->). intros _. split; [reflexivity |].
    destruct (_fuzzy_day self); [destruct Hd as (-> & _); reflexivity |].
    congruence.
Qed.

Lemma question_mark_marker :
  ~ decimal_digit 63%N /\ PyInt.int [63%N; 63%N] = None.
Proof.
  split; [unfold decimal_digit; lia | reflexivity].
Qed.

Lemma roundtrip_non_decimal_marker_witness :
  exists s,
    fuzzy_isoformat (mkfuzzy (mkdate 2020 6 1) false true) (Some (lit "%"))
      = Ok s /\
    fuzzy_fromisoformat (PyStr s) = Ok (mkfuzzy (mkdate 2020 6 1) false true).
Proof.
  apply (roundtrip_non_decimal_marker
           (mkfuzzy (mkdate 2020 6 1) false true) 37%N).
  - exists 2020, (Some 6), None. reflexivity.
  - reflexivity.
Defined.

(** X2. A marker that is a decimal digit outside [string.digits] is
    accepted by [fuzzy_isoformat].  An instance without fuzzy part still
    comes back from the string, the marker not being written; for one with
    a fuzzy day the day field reads as the number made of the digit twice,
    so whatever the parser returns has a known day and is not the
    instance. *)
Theorem roundtrip_decimal_marker (self : fuzzydate) (c : char) (d : N) :
  legal self -> ~ decimal_digit c ->
  PyInt.Py_UNICODE_TODECIMAL c = Some d ->
  exists s,
    fuzzy_isoformat self (Some [c]) = Ok s /\
    (_fuzzy_day self = false -> fuzzy_fromisoformat (PyStr s) = Ok self) /\
    (_fuzzy_day self = true ->
     fuzzy_fromisoformat (PyStr s) <> Ok self /\
     forall r, fuzzy_fromisoformat (PyStr s) = Ok r ->
       _fuzzy_day r = false /\ day r = Z.of_N (11 * d)).
Proof.
  intros Hlegal Hc Hdec.
  pose proof (int_digit_pair c d Hdec) as Hpair.
  destruct (fuzzy_isoformat_chars self c Hlegal Hc)
    as (c0 & c1 & c2 & c3 & m0 & m1 & d0 & d1 & Hfmt & Hy & Hm & Hd).
  eexists. split; [exact Hfmt |]. split.
  - intros Hday. rewrite Hday in Hd.
    assert (Hmonth : _fuzzy_month self = false).
    { destruct Hlegal as (y & m & dd & Hnew).
      destruct (__new___invariant y m dd self Hnew) as [Hmd _ _ _].
      destruct (_fuzzy_month self); [| reflexivity].
      rewrite Hmd in Hday by reflexivity. discriminate. }
    rewrite Hmonth in Hm.
    rewrite <- (legal_logical self Hlegal). unfold logical_month, logical_day.
    rewrite Hday, Hmonth, <- Hm, <- Hd.
    apply fuzzy_fromisoformat_chars; [exact Hy | |]; congruence.
  - intros Hday. rewrite Hday in Hd. destruct Hd as (-> & ->).
    assert (Hknown : forall r,
      fuzzy_fromisoformat
        (PyStr [c0; c1; c2; c3; dash; m0; m1; dash; c; c]) = Ok r ->
      _fuzzy_day r = false /\ day r = Z.of_N (11 * d)).
    { intros r Hr. apply fuzzy_fromisoformat_ok_inv in Hr.
      destruct Hr as (_ & _ & _ & y & _ & Hnew).
      change (slice _ 8 10) with [c; c] in Hnew. rewrite Hpair in Hnew.
      apply __new___logical in Hnew. destruct Hnew as (_ & _ & Hlog).
      unfold logical_day in Hlog.
      destruct (_fuzzy_day r); [discriminate |].
      split; congruence. }
    split; [| exact Hknown].
    intros Hself. apply Hknown in Hself. destruct Hself as (Hself & _).
    congruence.
Qed.

Lemma roundtrip_decimal_marker_witness :
  exists s,
    fuzzy_isoformat (mkfuzzy (mkdate 2020 6 1) false true) (Some [0x661%N])
      = Ok s /\
    fuzzy_fromisoformat (PyStr s)
      <> Ok (mkfuzzy (mkdate 2020 6 1) false true).
Proof.
  destruct (roundtrip_decimal_marker
              (mkfuzzy (mkdate 2020 6 1) false true) 0x661%N 1%N)
    as (s & Hfmt & _ & Hfuzzy).
  - exists 2020, (Some 6), None. reflexivity.
  - unfold decimal_digit. lia.
  - reflexivity.
  - exists s. split; [exact Hfmt |]. apply Hfuzzy. reflexivity.
Defined.

(** X3. What [fuzzy_isoformat] returns for an instance the constructor
    made, whatever the accepted marker, is ten characters long with ['-']
    at index 4 and index 7 and a year field that reads as the year: the
    parser's type, length, separator and year checks pass on it. *)
Theorem fuzzy_isoformat_well_shaped (self : fuzzydate) (c : char) :
  legal self -> ~ decimal_digit c ->
  exists s,
    fuzzy_isoformat self (Some [c]) = Ok s /\
    well_shaped s /\
    PyInt.int (slice s 0 4) = Some (year self).
Proof.
  intros Hlegal Hc.
  destruct (fuzzy_isoformat_chars self c Hlegal Hc)
    as (c0 & c1 & c2 & c3 & m0 & m1 & d0 & d1 & Hfmt & Hy & _ & _).
  eexists. split; [exact Hfmt |].
  split; [repeat split; reflexivity | exact Hy].
Qed.

Lemma fuzzy_isoformat_well_shaped_witness :
  exists s,
    fuzzy_isoformat (mkfuzzy (mkdate 33 1 1) true true) (Some [0x663%N])
      = Ok s /\
    well_shaped s /\
    PyInt.int (slice s 0 4) = Some 33.
Proof.
  apply (fuzzy_isoformat_well_shaped (mkfuzzy (mkdate 33 1 1) true true)).
  - exists 33, None, None. reflexivity.
  - unfold decimal_digit. lia.
Defined.

(** ** The size of what [int] reads *)

Lemma scan_bound (s : pystr) (prev : bool) (acc : N) (n : nat)
      (v : N) (n' : nat) (rest : pystr) :
  PyInt.scan s prev acc n = Some (v, n', rest) ->
  (v + 1 <= (acc + 1) * 10 ^ N.of_nat (List.length s))%N.
Proof.
  revert prev acc n.
  induction s as [| c s IH]; intros prev acc n; cbn [PyInt.scan].
  - destruct prev; [discriminate |]. intros [= <- _ _]. simpl. lia.
  - assert (Hpow : (10 ^ N.of_nat (List.length (c :: s))
                    = 10 * 10 ^ N.of_nat (List.length s))%N).
    { cbn [List.length]. rewrite Nat2N.inj_succ, N.pow_succ_r'. reflexivity. }
    assert (Hpos : (1 <= 10 ^ N.of_nat (List.length s))%N).
    { pose proof (N.pow_nonzero 10 (N.of_nat (List.length s))). lia. }
    rewrite Hpow.
    destruct (c =? 95)%N.
    + destruct prev; [discriminate |]. intros H. apply IH in H. nia.
    + unfold PyInt.digit_value.
      destruct ((48 <=? c)%N && (c <=? 57)%N) eqn:E.
      * apply andb_true_iff in E. rewrite !N.leb_le in E.
        intros H. apply IH in H. nia.
      * destruct prev; [discriminate |]. intros [= <- _ _]. nia.
Qed.

Lemma skip_space_length (s : pystr) :
  (List.length (PyInt.skip_space s) <= List.length s)%nat.
Proof.
  induction s as [| c s IH]; simpl; [lia |].
  destruct (PyInt.Py_ISSPACE c); simpl; lia.
Qed.

Lemma transform_length (s : pystr) :
  (List.length (PyInt.transform s) <= List.length s)%nat.
Proof.
  unfold PyInt.transform. destruct (PyInt.is_ascii s); [lia |].
  induction s as [| c s IH]; simpl; [lia |].
  destruct (c <? 127)%N; simpl; [lia |].
  destruct (PyInt.Py_UNICODE_ISSPACE c); simpl; [lia |].
  destruct (PyInt.Py_UNICODE_TODECIMAL c); simpl; lia.
Qed.

Lemma pow10_le (a b : nat) :
  (a <= b)%nat -> 10 ^ Z.of_nat a <= 10 ^ Z.of_nat b.
Proof. intros H. apply Z.pow_le_mono_r; lia. Qed.

Lemma PyLong_FromString_bound (s : pystr) (v : Z) :
  PyInt.PyLong_FromString s = Some v ->
  Z.abs v < 10 ^ Z.of_nat (List.length s).
Proof.
  unfold PyInt.PyLong_FromString.
  pose proof (skip_space_length s) as Hskip.
  set (s1 := PyInt.skip_space s) in *.
  assert (Hscan : forall s2 negative,
    (List.length s2 <= List.length s1)%nat ->
    match s2 with
    | [] => None
    | c :: _ =>
        if (c =? 95)%N then None
        else match PyInt.scan s2 false 0 0 with
             | Some (v0, O, _) => None
             | Some (v0, S _, rest) =>
                 match PyInt.skip_space rest with
                 | [] => Some (if (negative : bool)
                               then - Z.of_N v0 else Z.of_N v0)
                 | _ :: _ => None
                 end
             | None => None
             end
    end = Some v -> Z.abs v < 10 ^ Z.of_nat (List.length s)).
  { intros s2 negative Hlen H.
    destruct s2 as [| c s2']; [discriminate |].
    destruct (c =? 95)%N; [discriminate |].
    destruct (PyInt.scan (c :: s2') false 0 0) as [[[v0 k] rest] |] eqn:E;
      [| discriminate].
    destruct k; [discriminate |].
    destruct (PyInt.skip_space rest); [| discriminate].
    apply scan_bound in E.
    assert (Hv0 : Z.of_N v0 < 10 ^ Z.of_nat (List.length (c :: s2'))).
    { apply N2Z.inj_le in E.
      rewrite N2Z.inj_mul, N2Z.inj_add, N2Z.inj_pow, nat_N_Z in E.
      change (Z.of_N (0 + 1)) with 1 in E. change (Z.of_N 1) with 1 in E.
      change (Z.of_N 10) with 10 in E.
      unfold pystr, char in *. lia. }
    pose proof (pow10_le _ _ (Nat.le_trans _ _ _ Hlen Hskip)) as Hmono.
    injection H as <-. destruct negative; lia. }
  destruct s1 as [| c t] eqn:Es1.
  - intros H. apply (Hscan [] false); [unfold pystr, char in *; simpl; lia | exact H].
  - destruct (c =? 43)%N.
    + intros H. apply (Hscan t false); [unfold pystr, char in *; simpl; lia | exact H].
    + destruct (c =? 45)%N; intros H.
      * apply (Hscan t true); [unfold pystr, char in *; simpl; lia | exact H].
      * apply (Hscan (c :: t) false); [unfold pystr, char in *; simpl; lia | exact H].
Qed.

(** [int] of a string of [n] characters is below [10 ^ n] in size. *)
Lemma int_bound (s : pystr) (v : Z) :
  PyInt.int s = Some v -> Z.abs v < 10 ^ Z.of_nat (List.length s).
Proof.
  unfold PyInt.int. intros H. apply PyLong_FromString_bound in H.
  pose proof (pow10_le _ _ (transform_length s)). lia.
Qed.

Lemma slice_length (s : pystr) (a b : nat) :
  (List.length (slice s a b) <= b - a)%nat.
Proof. unfold slice. apply firstn_le_length. Qed.

(** The fields of a date string fit a C [int]. *)
Lemma field_fits (s : pystr) (a b : nat) (v : Z) :
  (b - a <= 4)%nat -> PyInt.int (slice s a b) = Some v -> fits_c_int v.
Proof.
  intros Hab H. apply int_bound in H.
  pose proof (pow10_le _ 4 (Nat.le_trans _ _ _ (slice_length s a b) Hab)).
  change (10 ^ Z.of_nat 4) with 10000 in *. unfold fits_c_int. lia.
Qed.

Lemma optional_field_fits (s : pystr) (a b : nat) :
  (b - a <= 4)%nat -> fits_c_int (or_one (PyInt.int (slice s a b))).
Proof.
  intros Hab. destruct (PyInt.int (slice s a b)) as [v |] eqn:E.
  - exact (field_fits s a b v Hab E).
  - unfold fits_c_int. simpl. lia.
Qed.

(** X4. On a [str] argument the parser fails only in the ways the source
    names: the length, a separator, an inconsistent marker, the year, or
    the constructor's two errors.  Each is a [ValueError]; no index is ever
    out of range. *)
Theorem fuzzy_fromisoformat_errors (s : pystr) (e : exn) :
  fuzzy_fromisoformat (PyStr s) = Raise e ->
  (e = InvalidLength s /\ List.length s <> 10%nat \/
   e = InvalidSeparator (at_ s 4) /\ at_ s 4 <> dash \/
   e = InvalidSeparator (at_ s 7) /\ at_ s 7 <> dash \/
   e = InconsistentMarker s \/
   e = InvalidYear (slice s 0 4) \/
   (exists y m d, e = InvalidCombination y m d) \/
   (exists why, e = InvalidDate why)) /\
  class_of e = PyValueError.
Proof.
  intros Hparse.
  assert (Hkind :
    e = InvalidLength s /\ List.length s <> 10%nat \/
    e = InvalidSeparator (at_ s 4) /\ at_ s 4 <> dash \/
    e = InvalidSeparator (at_ s 7) /\ at_ s 7 <> dash \/
    e = InconsistentMarker s \/
    e = InvalidYear (slice s 0 4) \/
    (exists y m d, e = InvalidCombination y m d) \/
    (exists why, e = InvalidDate why)).
  { destruct (Nat.eq_dec (List.length s) 10) as [Hlen | Hlen].
    - destruct (N.eq_dec (at_ s 4) dash) as [H4 | H4];
        [destruct (N.eq_dec (at_ s 7) dash) as [H7 | H7] |].
      + rewrite fuzzy_fromisoformat_stages in Hparse
          by (repeat split; assumption).
        destruct (day_marker_bad_dec s); [injection Hparse as <-; tauto |].
        destruct (month_marker_bad_dec s); [injection Hparse as <-; tauto |].
        destruct (PyInt.int (slice s 0 4)) as [y |] eqn:Hyear;
          [| injection Hparse as <-; tauto].
        apply __new___raises in Hparse.
        destruct Hparse as [-> | [Hdate | (v & _ & Hv & Hwhich)]];
          [do 5 right; left; eauto | tauto |].
        exfalso. apply Hv.
        destruct Hwhich as [-> | [-> | ->]].
        * apply (field_fits s 0 4); [lia | exact Hyear].
        * apply optional_field_fits. lia.
        * apply optional_field_fits. lia.
      + destruct (ten_characters s Hlen)
          as (c0 & c1 & c2 & c3 & c4 & c5 & c6 & c7 & c8 & c9 & ->).
        unfold at_ in *. simpl nth in *. subst c4.
        rewrite fuzzy_fromisoformat_ten in Hparse.
        simpl check_separators in Hparse.
        apply N.eqb_neq in H7. unfold dash in H7. rewrite H7 in Hparse.
        injection Hparse as <-. apply N.eqb_neq in H7. tauto.
      + destruct (ten_characters s Hlen)
          as (c0 & c1 & c2 & c3 & c4 & c5 & c6 & c7 & c8 & c9 & ->).
        unfold at_ in *. simpl nth in *.
        rewrite fuzzy_fromisoformat_ten in Hparse.
        simpl check_separators in Hparse.
        apply N.eqb_neq in H4. unfold dash in H4. rewrite H4 in Hparse.
        injection Hparse as <-. apply N.eqb_neq in H4. tauto.
    - revert Hparse. unfold fuzzy_fromisoformat, len.
      destruct (Z.eqb_spec (Z.of_nat (List.length s)) 10); [lia |].
      intros [= <-]. tauto. }
  split; [exact Hkind |].
  destruct Hkind as [(-> & _) | [(-> & _) | [(-> & _) | [-> | [-> |
    [(y & m & d & ->) | (why & ->)]]]]]]; reflexivity.
Qed.

Lemma fuzzy_fromisoformat_errors_witness :
  class_of (InvalidDate (DayOutOfRange 31)) = PyValueError.
Proof.
  apply (fuzzy_fromisoformat_errors (lit "2020-06-31")). reflexivity.
Defined.

(** X5. What a returned instance says of the argument: it was a string of
    the right shape whose year field reads as the year and whose month and
    day fields read as the logical month and day, no integer where the
    part is fuzzy; the two characters of a fuzzy day are the same, and with
    a fuzzy month all four marker characters are. *)
Theorem fuzzy_fromisoformat_ok_fields (o : pyobj) (self : fuzzydate) :
  fuzzy_fromisoformat o = Ok self ->
  exists s,
    o = PyStr s /\ well_shaped s /\
    PyInt.int (slice s 0 4) = Some (year self) /\
    PyInt.int (slice s 5 7) = logical_month self /\
    PyInt.int (slice s 8 10) = logical_day self /\
    (_fuzzy_day self = true -> at_ s 8 = at_ s 9) /\
    (_fuzzy_month self = true ->
     at_ s 5 = at_ s 6 /\ at_ s 5 = at_ s 8 /\ _fuzzy_day self = true).
Proof.
  intros Hparse. destruct o as [s | | |]; try discriminate Hparse.
  exists s. split; [reflexivity |].
  apply fuzzy_fromisoformat_ok_inv in Hparse.
  destruct Hparse as (Hshape & Hday & Hmonth & y & Hyear & Hnew).
  pose proof (__new___ok_inv _ _ _ _ Hnew) as (Hcomb & _ & _).
  apply __new___logical in Hnew. destruct Hnew as (<- & Hm & Hd).
  split; [exact Hshape |]. split; [exact Hyear |].
  split; [symmetry; exact Hm |]. split; [symmetry; exact Hd |].
  unfold logical_month in Hm. unfold logical_day in Hd.
  unfold day_marker_bad in Hday. unfold month_marker_bad in Hmonth.
  split.
  - intros Hfd. rewrite Hfd in Hd.
    destruct (N.eq_dec (at_ s 8) (at_ s 9)) as [E | E]; [exact E |].
    exfalso. apply Hday. split; [symmetry; exact Hd | exact E].
  - intros Hfm. rewrite Hfm in Hm.
    assert (Hdd : PyInt.int (slice s 8 10) = None).
    { destruct (PyInt.int (slice s 8 10)) as [d |]; [| reflexivity].
      exfalso. apply Hcomb. split; [congruence | discriminate]. }
    assert (Hfd : _fuzzy_day self = true).
    { destruct (_fuzzy_day self); [reflexivity | congruence]. }
    destruct (N.eq_dec (at_ s 5) (at_ s 6)) as [E | E];
      [| exfalso; apply Hmonth; split; [congruence | tauto]].
    destruct (N.eq_dec (at_ s 5) (at_ s 8)) as [E' | E'];
      [| exfalso; apply Hmonth; split; [congruence | tauto]].
    tauto.
Qed.

Lemma fuzzy_fromisoformat_ok_fields_witness :
  exists s,
    PyStr (lit "2020-##-##") = PyStr s /\ well_shaped s /\
    PyInt.int (slice s 0 4) = Some 2020 /\
    PyInt.int (slice s 5 7) = None /\
    PyInt.int (slice s 8 10) = None /\
    (true = true -> at_ s 8 = at_ s 9) /\
    (true = true -> at_ s 5 = at_ s 6 /\ at_ s 5 = at_ s 8 /\ true = true).
Proof.
  apply (fuzzy_fromisoformat_ok_fields (PyStr (lit "2020-##-##"))
           (mkfuzzy (mkdate 2020 1 1) true true)).
  reflexivity.
Defined.

(** X6. A string whose month field is no integer while its day field is
    one never parses; when its shape is right, the month field is one
    character twice and the year reads as [y], the failure is the
    constructor's [InvalidCombination] on [y], no month and the day. *)
Theorem fuzzy_month_with_day_rejected (s : pystr) (d : Z) :
  PyInt.int (slice s 5 7) = None ->
  PyInt.int (slice s 8 10) = Some d ->
  is_ok (fuzzy_fromisoformat (PyStr s)) = false /\
  (forall y, well_shaped s -> at_ s 5 = at_ s 6 ->
     PyInt.int (slice s 0 4) = Some y ->
     fuzzy_fromisoformat (PyStr s)
       = Raise (InvalidCombination y None (Some d))).
Proof.
  intros Hm Hd. split.
  - destruct (fuzzy_fromisoformat (PyStr s)) as [self |] eqn:Hparse;
      [| reflexivity].
    apply fuzzy_fromisoformat_ok_inv in Hparse.
    destruct Hparse as (_ & _ & _ & y & _ & Hnew).
    rewrite Hm, Hd, __new___combination in Hnew. discriminate Hnew.
  - intros y Hshape E Hy.
    rewrite fuzzy_fromisoformat_stages by exact Hshape.
    destruct (day_marker_bad_dec s) as [(H & _) | _]; [congruence |].
    destruct (month_marker_bad_dec s) as [(_ & [H | (H & _)]) | _];
      [contradiction | congruence |].
    rewrite Hy, Hm, Hd. reflexivity.
Qed.

Lemma fuzzy_month_with_day_rejected_witness :
  is_ok (fuzzy_fromisoformat (PyStr (lit "2020-??-27"))) = false.
Proof.
  apply (fuzzy_month_with_day_rejected (lit "2020-??-27") 27); reflexivity.
Defined.

(** X7. The string of an instance tells its logical value: two instances
    the constructor made that print alike, under [str] or under one marker
    that is no decimal digit, are the same instance (while [==] does not
    tell a fuzzy part from a 1). *)
Theorem str_determines_instance (a b : fuzzydate) :
  legal a -> legal b ->
  (str a = str b -> a = b) /\
  (forall c, PyInt.Py_UNICODE_TODECIMAL c = None ->
     fuzzy_isoformat a (Some [c]) = fuzzy_isoformat b (Some [c]) -> a = b).
Proof.
  intros Ha Hb.
  assert (Hinj : forall c, ~ decimal_digit c -> PyInt.int [c; c] = None ->
            fuzzy_isoformat a (Some [c]) = fuzzy_isoformat b (Some [c]) ->
            a = b).
  { intros c Hc Hpair Heq.
    destruct (format_parse_pair a c Ha Hc Hpair) as (sa & Hfa & Hpa).
    destruct (format_parse_pair b c Hb Hc Hpair) as (sb & Hfb & Hpb).
    rewrite Hfa, Hfb in Heq. injection Heq as ->. congruence. }
  split.
  - apply (Hinj 63%N); apply question_mark_marker.
  - intros c Hdec. apply Hinj; [| apply int_marker_pair, Hdec].
    intros Hdigit. destruct Hdigit as (H1 & H2).
    unfold PyInt.Py_UNICODE_TODECIMAL in Hdec.
    replace ((48 <=? c)%N && (c <=? 57)%N) with true in Hdec;
      [discriminate |].
    symmetry. apply andb_true_iff. split; apply N.leb_le; assumption.
Qed.

Lemma str_determines_instance_witness :
  legal (mkfuzzy (mkdate 2020 6 1) false true) /\
  mkfuzzy (mkdate 2020 6 1) false true = mkfuzzy (mkdate 2020 6 1) false true.
Proof.
  assert (Hlegal : legal (mkfuzzy (mkdate 2020 6 1) false true))
    by (exists 2020, (Some 6), None; reflexivity).
  split; [exact Hlegal |].
  apply (proj1 (str_determines_instance _ _ Hlegal Hlegal)). reflexivity.
Defined.

(** X8. [repr] of an instance prints the call that made it: the class
    name and the constructor's three arguments, [None] for one left
    out. *)
Theorem repr_of_constructed (y : Z) (m d : option Z) (self : fuzzydate) :
  __new__ y m d = Ok self ->
  __repr__ self =
    lit "fuzzydate(" ++ PyFormat.str_of_int y ++ lit ", "
      ++ str_of_optint m ++ lit ", " ++ str_of_optint d ++ lit ")".
Proof.
  intros Hnew. apply __new___ok_inv in Hnew. destruct Hnew as (_ & _ & ->).
  destruct m, d; reflexivity.
Qed.

Lemma repr_of_constructed_witness :
  __repr__ (mkfuzzy (mkdate 2020 1 1) true true)
    = lit "fuzzydate(" ++ PyFormat.str_of_int 2020 ++ lit ", "
        ++ str_of_optint None ++ lit ", " ++ str_of_optint None ++ lit ")".
Proof.
  apply (repr_of_constructed 2020 None None). reflexivity.
Defined.

(** X9. Whatever the parser returns prints, under [str] and under every
    marker without decimal value, to a string that parses to the same
    instance again. *)
Theorem parse_format_parse (o : pyobj) (self : fuzzydate) :
  fuzzy_fromisoformat o = Ok self ->
  (exists s, str self = Ok s /\ fuzzy_fromisoformat (PyStr s) = Ok self) /\
  (forall c, PyInt.Py_UNICODE_TODECIMAL c = None ->
     exists s,
       fuzzy_isoformat self (Some [c]) = Ok s /\
       fuzzy_fromisoformat (PyStr s) = Ok self).
Proof.
  intros Hparse. apply fuzzy_fromisoformat_legal in Hparse.
  split.
  - apply (format_parse_pair self 63%N Hparse); apply question_mark_marker.
  - intros c Hdec.
    apply (format_parse_pair self c Hparse); [| apply int_marker_pair, Hdec].
    intros (H1 & H2). unfold PyInt.Py_UNICODE_TODECIMAL in Hdec.
    replace ((48 <=? c)%N && (c <=? 57)%N) with true in Hdec;
      [discriminate |].
    symmetry. apply andb_true_iff. split; apply N.leb_le; assumption.
Qed.

Lemma parse_format_parse_witness :
  exists s,
    str (mkfuzzy (mkdate 20 6 1) false true) = Ok s /\
    fuzzy_fromisoformat (PyStr s) = Ok (mkfuzzy (mkdate 20 6 1) false true).
Proof.
  apply (proj1 (parse_format_parse (PyStr (lit "+2_0- 6-**"))
                  (mkfuzzy (mkdate 20 6 1) false true) eq_refl)).
Defined.

(** X10. Without a day the calendar plays no part: a year alone is
    accepted exactly when it is in 1..9999, a year and a month exactly when
    moreover the month is in 1..12. *)
Theorem fuzzy_day_ranges (y : Z) :
  (is_ok (__new__ y None None) = true <-> 1 <= y <= 9999) /\
  (forall m, is_ok (__new__ y (Some m) None) = true <->
             1 <= y <= 9999 /\ 1 <= m <= 12).
Proof.
  assert (Hiff : forall m : option Z,
    is_ok (__new__ y m None) = true <->
    1 <= y <= 9999 /\ 1 <= or_one m <= 12).
  { intros m. split.
    - destruct (__new__ y m None) as [self |] eqn:Hnew; [| discriminate].
      intros _. apply __new___ok_inv in Hnew.
      destruct Hnew as (_ & Hvalid & _).
      apply valid_calendar_date_bounds in Hvalid. tauto.
    - intros (Hy & Hm).
      rewrite __new___date by (intros (_ & H); apply H; reflexivity).
      rewrite date_new_valid; [reflexivity |].
      split; [exact Hy |]. exists (_days_in_month y (or_one m)).
      split; [apply _days_in_month_has_days, Hm |].
      pose proof (_days_in_month_bounds y (or_one m) Hm). simpl. lia. }
  split.
  - rewrite (Hiff None). simpl. lia.
  - intros m. apply (Hiff (Some m)).
Qed.

Lemma fuzzy_day_ranges_witness :
  is_ok (__new__ 9999 None None) = true /\
  is_ok (__new__ 1 (Some 12) None) = true.
Proof.
  split.
  - apply (proj1 (fuzzy_day_ranges 9999)). lia.
  - apply (proj2 (fuzzy_day_ranges 1) 12). lia.
Defined.
